(** * Testovoe.py: a catalog of books kept in a JSON file

    A shallow embedding of [src/Testovoe.py] (classes [Book] and [Library])
    and the properties of its specification.

    Python is dynamically typed, so the values that reach the methods are
    modelled by the universe [pyval]; exceptions are modelled by [exn] and a
    method of [Library] is a function from the object's state to a result
    (a value or a raised exception) and the state it leaves behind.  The
    state carries the content of [self.data_file] as [json.load] sees it, so
    that persistence is part of what is modelled.

    The last part models the menu of [LibraryInterface] over a console.

    Outside the model:
    - floating point numbers, which [json.load] returns for a number written
      with a fraction or an exponent ([pyval] has integers only; what line 82
      computes from ids that are floats is evaluated apart, in [FloatIds]);
    - in the methods of [Library] as they are modelled first, what the
      interpreter does with an integer of more than 4300 decimal digits:
      [json.dump] and an f-string raise [ValueError] when they write one.
      Those definitions are the methods on the catalogs that [json.dump] can
      write ([dumpable_catalog]); the module [Limit] has the methods that
      save on any catalog, and the two are proved to agree within the
      limit;
    - a [Book] object that is handed to [add_book] while it is already in
      the catalog: a [Book] is a value here, not a reference;
    - values nested deeper than the interpreter lets a call recurse, and
      texts that UTF-8 cannot encode, on which [json.dump] raises as well;
    - the text of what is printed, and the creation of the data folder. *)

From Stdlib Require Import ZArith List String Ascii Bool Lia Floats.
Import ListNotations.

#[local] Set Warnings "-register-all".
#[local] Open Scope string_scope.
#[local] Open Scope Z_scope.

(** ** Python values and exceptions *)

(** The values [json.load] returns and the arguments the methods are called
    with.  A [VDict] lists the items of a dict in insertion order (its keys
    are pairwise distinct in every dict Python builds). *)
Inductive pyval : Type :=
| VNone
| VBool (b : bool)
| VInt (z : Z)
| VStr (s : string)
| VList (l : list pyval)
| VDict (d : list (string * pyval)).

(** The exception classes of the module and the built-in ones its code can
    raise. *)
Inductive exn : Type :=
| BookNotFoundError
| InvalidInputError
| InvalidStatusError
| TypeError
| ValueError
| KeyError
| AttributeError
| UnicodeDecodeError
| RecursionError.

(** [class X(BookError)]: the three classes of the module's own hierarchy. *)
Definition is_BookError (e : exn) : bool :=
  match e with
  | BookNotFoundError | InvalidInputError | InvalidStatusError => true
  | _ => false
  end.

Inductive result (A : Type) : Type :=
| Ok (a : A)
| Raise (e : exn).
Arguments Ok {A} a.
Arguments Raise {A} e.

(** [bool(v)]: the truth value Python's [not v] tests. *)
Definition truthy (v : pyval) : bool :=
  match v with
  | VNone => false
  | VBool b => b
  | VInt z => negb (z =? 0)
  | VStr s => negb (String.eqb s "")
  | VList l => match l with [] => false | _ => true end
  | VDict d => match d with [] => false | _ => true end
  end.

(** [isinstance(v, str)] and [isinstance(v, int)] ([bool] is a subclass of
    [int]). *)
Definition isinstance_str (v : pyval) : bool :=
  match v with VStr _ => true | _ => false end.

Definition isinstance_int (v : pyval) : bool :=
  match v with VInt _ | VBool _ => true | _ => false end.

(** The integer a value of class [int] stands for ([True] is 1). *)
Definition as_int (v : pyval) : option Z :=
  match v with
  | VInt z => Some z
  | VBool b => Some (if b then 1 else 0)
  | _ => None
  end.

(** [v == z] for an integer [z]: only an [int] (or [bool]) equals it. *)
Definition py_eq_int (v : pyval) (z : Z) : bool :=
  match as_int v with
  | Some x => x =? z
  | None => false
  end.

(** [v[key]] for a string key: a dict answers or raises [KeyError]; every
    other value of the universe raises [TypeError] (a list or a string wants
    integer indices, the rest is not subscriptable). *)
Fixpoint lookup (key : string) (d : list (string * pyval)) : option pyval :=
  match d with
  | [] => None
  | (k, v) :: d' => if String.eqb k key then Some v else lookup key d'
  end.

Definition subscript (v : pyval) (key : string) : result pyval :=
  match v with
  | VDict d =>
      match lookup key d with
      | Some x => Ok x
      | None => Raise KeyError
      end
  | _ => Raise TypeError
  end.

(** [for x in v]: the items a [for] loop visits.  A dict yields its keys; a
    string yields its characters as strings (split here at bytes: the loop
    of [load_data] subscripts the first one and raises, so only emptiness is
    observed); the other values are not iterable. *)
Definition py_iter (v : pyval) : result (list pyval) :=
  match v with
  | VList l => Ok l
  | VDict d => Ok (map (fun kv => VStr (fst kv)) d)
  | VStr s => Ok (map (fun c => VStr (String c EmptyString)) (list_ascii_of_string s))
  | _ => Raise TypeError
  end.

(** [a in b] for two strings: [a] occurs in [b] as a contiguous block. *)
Fixpoint is_substring (a b : string) : bool :=
  String.prefix a b ||
  match b with
  | EmptyString => false
  | String _ b' => is_substring a b'
  end.

(** [a] occurs in [b]: [b] is [a] between two strings, as the language
    reference defines [a in b]. *)
Definition occurs (a b : string) : Prop := exists p q, b = p ++ a ++ q.

(** The interpreter refuses to write an integer of more than
    [sys.int_max_str_digits] decimal digits, 4300 unless it is started
    otherwise: [str], an f-string and [json.dump] raise [ValueError] on
    one.  [printable z] says that [z] is within the limit. *)
Definition int_max_str_digits : Z := 4300.

(** The least number that has one digit too many. *)
Definition beyond_digits : Z := Eval vm_compute in 10 ^ int_max_str_digits.

Definition printable (z : Z) : bool := Z.abs z <? beyond_digits.

(** [json.dump] writes [v] without an exception: every integer in [v] is
    within the limit (the other values of the universe are always
    written). *)
Fixpoint dumpable (v : pyval) : bool :=
  match v with
  | VInt z => printable z
  | VList l => forallb dumpable l
  | VDict d => forallb (fun kv => dumpable (snd kv)) d
  | _ => true
  end.

(** ** class Book *)

Module Book.

Record t : Type := mk {
  id : pyval;
  title : pyval;
  author : pyval;
  year : pyval;
  status : pyval
}.

Definition IN_STOCK : string := "в наличии".
Definition ISSUED : string := "выдана".

(** [status in ['в наличии', 'выдана']]. *)
Definition valid_status (status : pyval) : bool :=
  match status with
  | VStr s => String.eqb s IN_STOCK || String.eqb s ISSUED
  | _ => false
  end.

(** [Book(title, author, year, status, id)]. *)
Definition __init__ (title author year status id : pyval) : result t :=
  if valid_status status
  then Ok (mk id title author year status)
  else Raise InvalidStatusError.

Definition to_dict (self : t) : pyval :=
  VDict [ ("id", id self);
          ("title", title self);
          ("author", author self);
          ("year", year self);
          ("status", status self) ].

Definition set_id (v : pyval) (self : t) : t :=
  mk v (title self) (author self) (year self) (status self).

Definition set_status (v : pyval) (self : t) : t :=
  mk (id self) (title self) (author self) (year self) v.

End Book.

(** ** class Library *)

(** What opening [self.data_file] for reading and handing it to [json.load]
    comes to.  A file from which [json.load] returns a value that holds a
    floating point number has no place here. *)
Inductive resource : Type :=
| Absent                (* open raises FileNotFoundError *)
| Unreadable            (* open or read raises another IOError *)
| NotUtf8               (* read raises UnicodeDecodeError *)
| NotJson               (* json.load raises JSONDecodeError *)
| DigitsLimit           (* json.load raises ValueError: the text holds an
                           integer of more than 4300 digits *)
| TooDeep               (* json.load raises RecursionError: the text is
                           nested too deep *)
| Json (data : pyval).  (* json.load returns data *)

(** The state of a [Library] object, together with the file its
    [data_file] names: [io_ok] tells whether opening that file for writing
    succeeds. *)
Record Library : Type := mkLibrary {
  books : list Book.t;
  next_id : Z;
  data_file : resource;
  io_ok : bool
}.

Definition set_books (bs : list Book.t) (self : Library) : Library :=
  mkLibrary bs (next_id self) (data_file self) (io_ok self).

Definition set_next_id (n : Z) (self : Library) : Library :=
  mkLibrary (books self) n (data_file self) (io_ok self).

Definition set_data_file (r : resource) (self : Library) : Library :=
  mkLibrary (books self) (next_id self) r (io_ok self).

(** A method body: it reads and updates [self], and returns or raises. *)
Definition M (A : Type) : Type := Library -> result A * Library.

Definition ret {A : Type} (a : A) : M A := fun self => (Ok a, self).

Definition raise {A : Type} (e : exn) : M A := fun self => (Raise e, self).

Definition bind {A B : Type} (m : M A) (k : A -> M B) : M B :=
  fun self =>
    match m self with
    | (Ok a, self') => k a self'
    | (Raise e, self') => (Raise e, self')
    end.

Definition lift {A : Type} (r : result A) : M A := fun self => (r, self).

Definition gets {A : Type} (f : Library -> A) : M A := fun self => (Ok (f self), self).

Definition modify (f : Library -> Library) : M unit := fun self => (Ok tt, f self).

Notation "x <- m ;; k" := (bind m (fun x => k))
  (at level 61, m at next level, right associativity).
Notation "m ;; k" := (bind m (fun _ => k))
  (at level 61, right associativity).

Fixpoint for_each {A : Type} (l : list A) (body : A -> M unit) : M unit :=
  match l with
  | [] => ret tt
  | x :: l' => body x ;; for_each l' body
  end.

(** [json.dump] followed by [json.load] gives back the value that was
    dumped (every [pyval] is made of what JSON encodes: null, booleans,
    integers, strings, arrays and objects with string keys; the file is
    written and read as UTF-8 with [ensure_ascii=False]): this is assumed of
    the [json] module, the text of the file is not modelled.  A failure to
    open the file is caught and reported, and leaves the file as it was.

    This is [save_data] on a catalog that [json.dump] can write,
    [dumpable_catalog] below.  On another one [json.dump] raises
    [ValueError], which [except IOError] does not catch, and the file is
    left cut short: [Limit.save_data] has that case. *)
Definition save_data : M unit :=
  fun self =>
    if io_ok self
    then (Ok tt, set_data_file (Json (VList (map Book.to_dict (books self)))) self)
    else (Ok tt, self).

(** The catalogs [save_data] is modelled on: [json.dump] can write the
    [to_dict] of every book. *)
Definition dumpable_catalog (self : Library) : bool :=
  forallb (fun book => dumpable (Book.to_dict book)) (books self).

(** The call [Book(title=book_data['title'], ...)] in the loop of
    [load_data]: keyword arguments are evaluated in the order they are
    written, and the first exception ends the call. *)
Definition and_then {A B : Type} (r : result A) (k : A -> result B) : result B :=
  match r with
  | Ok a => k a
  | Raise e => Raise e
  end.

Definition book_of_data (book_data : pyval) : result Book.t :=
  and_then (subscript book_data "title") (fun title =>
  and_then (subscript book_data "author") (fun author =>
  and_then (subscript book_data "year") (fun year =>
  and_then (subscript book_data "status") (fun status =>
  and_then (subscript book_data "id") (fun id =>
  Book.__init__ title author year status id))))).

(** One turn of the loop: build the book and append it. *)
Definition load_one (book_data : pyval) : M unit :=
  book <- lift (book_of_data book_data) ;;
  modify (fun self => set_books (books self ++ [book]) self).

(** [max(ids)] of integers, [None] when some id is not an integer. *)
Fixpoint max_int (ids : list pyval) : option Z :=
  match ids with
  | [] => None
  | v :: ids' =>
      match as_int v, ids' with
      | Some z, [] => Some z
      | Some z, _ => option_map (Z.max z) (max_int ids')
      | None, _ => None
      end
  end.

(** [max(book.id for book in self.books) + 1] for a non-empty list.  When
    some id is not an integer the expression raises [TypeError], in [max]
    or in the addition: [None] and dicts are not ordered, a string or a
    list is not ordered with an integer, and 1 cannot be added to a string
    or to a list. *)
Definition max_id_plus_one (bs : list Book.t) : result Z :=
  match max_int (map Book.id bs) with
  | Some m => Ok (m + 1)
  | None => Raise TypeError
  end.

Definition load_data : M unit :=
  fun self =>
    match data_file self with
    | Absent => (Ok tt, set_books [] self)
    | Unreadable | NotJson => (Ok tt, set_books [] self)
    | NotUtf8 => (Raise UnicodeDecodeError, self)
    | DigitsLimit => (Raise ValueError, self)
    | TooDeep => (Raise RecursionError, self)
    | Json data =>
        (modify (set_books []) ;;
         items <- lift (py_iter data) ;;
         for_each items load_one ;;
         bs <- gets books ;;
         match bs with
         | [] => modify (set_next_id 1)
         | _ => n <- lift (max_id_plus_one bs) ;; modify (set_next_id n)
         end) self
    end.

(** [Library()] on a machine whose data file is [file]: an exception
    leaves no object.  (The creation of the data folder is not modelled.) *)
Definition __init__ (file : resource) (writable : bool) : result Library :=
  match (load_data ;; save_data) (mkLibrary [] 1 file writable) with
  | (Ok _, self) => Ok self
  | (Raise e, _) => Raise e
  end.

(** The methods below use two built-ins on strings that are not part of
    the module: [str.lower] and the conversion [int(s)] of a string.  They
    are parameters of the development. *)
Section Methods.

(** [s.lower()]. *)
Variable lower : string -> string.

(** [int(s)] for a string [s]: [None] stands for [ValueError]. *)
Variable int_of_str : string -> option Z.

(** [int(v)]: an integer is kept, a string is converted, and the other
    values are refused with [TypeError]. *)
Definition py_int (v : pyval) : result Z :=
  match v with
  | VInt z => Ok z
  | VBool b => Ok (if b then 1 else 0)
  | VStr s =>
      match int_of_str s with
      | Some z => Ok z
      | None => Raise ValueError
      end
  | _ => Raise TypeError
  end.

(** The first argument of [add_book]: a [Book] object or any other value.
    A [Book] handed over is stored by value, which is what the code does
    for an object that is not already in the catalog (the code stores the
    object itself: handing over one that is in the catalog would give both
    entries the new id). *)
Inductive book_or_title : Type :=
| ABook (book : Book.t)
| ATitle (title : pyval).

(** The common end of [add_book] (lines 113 to 117). *)
Definition register (book : Book.t) : M Book.t :=
  n <- gets next_id ;;
  let book := Book.set_id (VInt n) book in
  modify (set_next_id (n + 1)) ;;
  modify (fun self => set_books (books self ++ [book]) self) ;;
  save_data ;;
  ret book.

Definition add_book (arg : book_or_title) (author year : pyval) : M Book.t :=
  match arg with
  | ABook book =>
      if negb (truthy (Book.title book)) || negb (truthy (Book.author book))
         || negb (truthy (Book.year book))
      then raise InvalidInputError
      else if negb (isinstance_int (Book.year book))
      then raise InvalidInputError
      else register book
  | ATitle title =>
      if negb (truthy title) || negb (truthy author) || negb (truthy year)
      then raise InvalidInputError
      else
        match py_int year with
        | Raise ValueError => raise InvalidInputError
        | Raise e => raise e
        | Ok year =>
            book <- lift (Book.__init__ title author (VInt year) (VStr Book.IN_STOCK) VNone) ;;
            register book
        end
  end.

Definition delete_book (id : Z) : M unit :=
  original_length <- gets (fun self => List.length (books self)) ;;
  modify (fun self =>
    set_books (filter (fun book => negb (py_eq_int (Book.id book) id)) (books self)) self) ;;
  len <- gets (fun self => List.length (books self)) ;;
  if Nat.eqb len original_length
  then raise BookNotFoundError
  else save_data.

(** [needle.lower() in field.lower()], where [needle] is a string: a field
    that is not a string has no method [lower]. *)
Definition lower_in (needle : string) (field : pyval) : result bool :=
  match field with
  | VStr s => Ok (is_substring (lower needle) (lower s))
  | _ => Raise AttributeError
  end.

(** A list comprehension [[x for x in l if test x]] whose test may raise. *)
Fixpoint comprehension {A : Type} (test : A -> result bool) (l : list A) : result (list A) :=
  match l with
  | [] => Ok []
  | x :: l' =>
      match test x with
      | Raise e => Raise e
      | Ok keep =>
          match comprehension test l' with
          | Raise e => Raise e
          | Ok r => Ok (if keep then x :: r else r)
          end
      end
  end.

Definition search_book (title author year : pyval) : M (list Book.t) :=
  results <- gets books ;;
  results <-
    match title with
    | VNone => ret results
    | VStr t => lift (comprehension (fun book => lower_in t (Book.title book)) results)
    | _ => raise TypeError
    end ;;
  results <-
    match author with
    | VNone => ret results
    | VStr a => lift (comprehension (fun book => lower_in a (Book.author book)) results)
    | _ => raise TypeError
    end ;;
  results <-
    match year with
    | VNone => ret results
    | _ =>
        match as_int year with
        | Some y => lift (comprehension (fun book => Ok (py_eq_int (Book.year book) y)) results)
        | None => raise TypeError
        end
    end ;;
  ret results.

(** The loop of [change_status]: the first book whose id equals [id] gets
    the new status; [None] when the loop ends without a match. *)
Fixpoint set_first_status (id : Z) (status : pyval) (bs : list Book.t) : option (list Book.t) :=
  match bs with
  | [] => None
  | book :: bs' =>
      if py_eq_int (Book.id book) id
      then Some (Book.set_status status book :: bs')
      else option_map (cons book) (set_first_status id status bs')
  end.

Definition change_status (id : Z) (status : pyval) : M unit :=
  if negb (Book.valid_status status)
  then raise InvalidStatusError
  else
    bs <- gets books ;;
    match set_first_status id status bs with
    | Some bs' => modify (set_books bs') ;; save_data
    | None => raise BookNotFoundError
    end.

End Methods.

(** ** The data model of the specification *)

(** A record as the specification describes it: an integer id, a non-empty
    title and author, an integer year and one of the two statuses. *)
Definition valid_record (b : Book.t) : bool :=
  match Book.id b, Book.title b, Book.author b, Book.year b with
  | VInt _, VStr t, VStr a, VInt _ =>
      negb (String.eqb t "") && negb (String.eqb a "") && Book.valid_status (Book.status b)
  | _, _, _, _ => false
  end.

(** The integer ids among the ids of a list of books. *)
Definition int_ids (bs : list Book.t) : list Z :=
  flat_map (fun b => match as_int (Book.id b) with Some i => [i] | None => [] end) bs.

Fixpoint distinct (l : list Z) : bool :=
  match l with
  | [] => true
  | x :: l' => negb (existsb (Z.eqb x) l') && distinct l'
  end.

(** A catalog as the specification describes it: valid records, pairwise
    distinct ids, and a counter above every id. *)
Definition valid_catalog (self : Library) : bool :=
  forallb valid_record (books self)
  && distinct (int_ids (books self))
  && forallb (fun i => i <? next_id self) (int_ids (books self)).

(** ** The tests of a search *)

Section Tests.

Variable lower : string -> string.

(** [needle] occurs in [field] when case is ignored. *)
Definition contains_ci (needle : string) (field : pyval) : bool :=
  match field with
  | VStr s => is_substring (lower needle) (lower s)
  | _ => false
  end.

(** The test of each filter: a filter that is not supplied lets every
    record through. *)
Definition title_test (title : pyval) (b : Book.t) : bool :=
  match title with VStr t => contains_ci t (Book.title b) | _ => true end.

Definition author_test (author : pyval) (b : Book.t) : bool :=
  match author with VStr a => contains_ci a (Book.author b) | _ => true end.

Definition year_test (year : pyval) (b : Book.t) : bool :=
  match as_int year with Some y => py_eq_int (Book.year b) y | None => true end.

Definition matches (title author year : pyval) (b : Book.t) : bool :=
  title_test title b && author_test author b && year_test year b.

(** A filter of the right type: not supplied, or a string (an integer). *)
Definition str_filter (v : pyval) : bool :=
  match v with VNone | VStr _ => true | _ => false end.

Definition int_filter (v : pyval) : bool :=
  match v with VNone | VInt _ | VBool _ => true | _ => false end.

End Tests.

(** Optional filters: the argument a caller passes for each. *)
Definition opt_str (o : option string) : pyval :=
  match o with Some s => VStr s | None => VNone end.

Definition opt_int (o : option Z) : pyval :=
  match o with Some z => VInt z | None => VNone end.

(** ** The life of a process *)

Section Process.

Variable lower : string -> string.
Variable int_of_str : string -> option Z.

(** The calls of the specification's interface.  [Add] is [add_book] called
    with a title, an author and a year, as the menu and the specification
    call it: the form of [add_book] that takes a [Book] object is not among
    the calls of a [process]. *)
Inductive call : Type :=
| Add (title author year : pyval)
| Delete (id : Z)
| ChangeStatus (id : Z) (status : pyval)
| Search (title author year : pyval).

(** A call, performed whether it returns or raises (the caller catches the
    exception and goes on): the state it leaves and the ids it assigned. *)
Definition perform (c : call) (self : Library) : Library * list Z :=
  match c with
  | Add title author year =>
      match add_book int_of_str (ATitle title) author year self with
      | (Ok book, self') => (self', int_ids [book])
      | (Raise _, self') => (self', [])
      end
  | Delete id => (snd (delete_book id self), [])
  | ChangeStatus id status => (snd (change_status id status self), [])
  | Search title author year => (snd (search_book lower title author year self), [])
  end.

(** [process self hist]: [self] is the state of the catalog of a running
    process, built by [Library()] from some data file and then used through
    the interface; [hist] lists every id a record has had in this process,
    those read from the file and those assigned since. *)
Inductive process : Library -> list Z -> Prop :=
| process_start file writable self :
    __init__ file writable = Ok self ->
    process self (int_ids (books self))
| process_call c self hist :
    process self hist ->
    process (fst (perform c self)) (hist ++ snd (perform c self))%list.

End Process.

(** A call that passes strings for the title and the author of a new
    book. *)
Definition text_call (c : call) : bool :=
  match c with
  | Add title author _ => isinstance_str title && isinstance_str author
  | _ => true
  end.

(** ** The methods beyond the digits limit

    [save_data] above is lines 58 to 64 on a catalog that [json.dump] can
    write, and the methods that call it are the code on such catalogs.  The
    definitions of this module are the same lines on any catalog: where an
    integer of more than 4300 digits is written, in [json.dump] or in the
    f-string of an error message, the interpreter raises [ValueError].  The
    two agree as long as the catalog that is saved can be written
    ([limit_add_book], [limit_delete_book], [limit_change_status]). *)
Module Limit.

(** Line 61 opens the file, which empties it, or raises [IOError], which is
    caught.  [json.dump] then writes the list, or it raises [ValueError]
    when it comes to the first integer beyond the limit: [except IOError]
    does not catch it, and the file is left with the beginning of the list,
    which is not JSON. *)
Definition save_data : M unit :=
  fun self =>
    if io_ok self
    then if dumpable_catalog self
         then (Ok tt, set_data_file (Json (VList (map Book.to_dict (books self)))) self)
         else (Raise ValueError, set_data_file NotJson self)
    else (Ok tt, self).

Definition __init__ (file : resource) (writable : bool) : result Library :=
  match (load_data ;; save_data) (mkLibrary [] 1 file writable) with
  | (Ok _, self) => Ok self
  | (Raise e, _) => Raise e
  end.

(** [raise BookNotFoundError(f"Книга с ID {id} не найдена")]: the f-string
    is evaluated first. *)
Definition not_found {A : Type} (id : Z) : M A :=
  if printable id then raise BookNotFoundError else raise ValueError.

Section Methods.

Variable lower : string -> string.
Variable int_of_str : string -> option Z.

Definition register (book : Book.t) : M Book.t :=
  n <- gets next_id ;;
  let book := Book.set_id (VInt n) book in
  modify (set_next_id (n + 1)) ;;
  modify (fun self => set_books (books self ++ [book]) self) ;;
  save_data ;;
  ret book.

Definition add_book (arg : book_or_title) (author year : pyval) : M Book.t :=
  match arg with
  | ABook book =>
      if negb (truthy (Book.title book)) || negb (truthy (Book.author book))
         || negb (truthy (Book.year book))
      then raise InvalidInputError
      else if negb (isinstance_int (Book.year book))
      then raise InvalidInputError
      else register book
  | ATitle title =>
      if negb (truthy title) || negb (truthy author) || negb (truthy year)
      then raise InvalidInputError
      else
        match py_int int_of_str year with
        | Raise ValueError => raise InvalidInputError
        | Raise e => raise e
        | Ok year =>
            book <- lift (Book.__init__ title author (VInt year) (VStr Book.IN_STOCK) VNone) ;;
            register book
        end
  end.

Definition delete_book (id : Z) : M unit :=
  original_length <- gets (fun self => List.length (books self)) ;;
  modify (fun self =>
    set_books (filter (fun book => negb (py_eq_int (Book.id book) id)) (books self)) self) ;;
  len <- gets (fun self => List.length (books self)) ;;
  if Nat.eqb len original_length
  then not_found id
  else save_data.

Definition change_status (id : Z) (status : pyval) : M unit :=
  if negb (Book.valid_status status)
  then raise InvalidStatusError
  else
    bs <- gets books ;;
    match set_first_status id status bs with
    | Some bs' => modify (set_books bs') ;; save_data
    | None => not_found id
    end.

(** A call, performed whether it returns or raises. *)
Definition perform (c : call) (self : Library) : Library * list Z :=
  match c with
  | Add title author year =>
      match add_book (ATitle title) author year self with
      | (Ok book, self') => (self', int_ids [book])
      | (Raise _, self') => (self', [])
      end
  | Delete id => (snd (delete_book id self), [])
  | ChangeStatus id status => (snd (change_status id status self), [])
  | Search title author year => (snd (search_book lower title author year self), [])
  end.

Fixpoint perform_all (cs : list call) (self : Library) : Library * list Z :=
  match cs with
  | [] => (self, [])
  | c :: cs' =>
      let (self1, ids1) := perform c self in
      let (self2, ids2) := perform_all cs' self1 in
      (self2, (ids1 ++ ids2)%list)
  end.


End Methods.

End Limit.

(** ** Derived forms of the methods

    What the methods compute, written without the monad: the lemmas of the
    next part prove them equal to the methods. *)

(** The state [save_data] leaves. *)
Definition saved (self : Library) : Library :=
  if io_ok self
  then set_data_file (Json (VList (map Book.to_dict (books self)))) self
  else self.

(** The state a successful [add_book] leaves. *)
Definition added (book : Book.t) (self : Library) : Library :=
  saved (mkLibrary (books self ++ [book]) (next_id self + 1) (data_file self) (io_ok self)).

(** What [Limit.save_data] comes to at the end of a method that has the
    value [a] to return. *)
Definition then_save {A : Type} (a : A) (self : Library) : result A * Library :=
  if io_ok self && negb (dumpable_catalog self)
  then (Raise ValueError, set_data_file NotJson self)
  else (Ok a, saved self).

(** The record [add_book(title, author, year)] builds. *)
Definition new_book (self : Library) (title author : pyval) (year : Z) : Book.t :=
  Book.mk (VInt (next_id self)) title author (VInt year) (VStr Book.IN_STOCK).

(** The books the loop of [load_data] builds from the items of the file. *)
Fixpoint parse_books (items : list pyval) : result (list Book.t) :=
  match items with
  | [] => Ok []
  | x :: items' =>
      match book_of_data x with
      | Raise e => Raise e
      | Ok b =>
          match parse_books items' with
          | Raise e => Raise e
          | Ok bs => Ok (b :: bs)
          end
      end
  end.

Definition load_loop (items : list pyval) : M unit := for_each items load_one.

(** What [Library()] returns, by the content of the data file. *)
Definition hydrated (file : resource) : result (list Book.t * Z) :=
  match file with
  | Absent | Unreadable | NotJson => Ok ([], 1)
  | NotUtf8 => Raise UnicodeDecodeError
  | DigitsLimit => Raise ValueError
  | TooDeep => Raise RecursionError
  | Json data =>
      match py_iter data with
      | Raise e => Raise e
      | Ok items =>
          match parse_books items with
          | Raise e => Raise e
          | Ok [] => Ok ([], 1)
          | Ok bs =>
              match max_id_plus_one bs with
              | Raise e => Raise e
              | Ok n => Ok (bs, n)
              end
          end
      end
  end.

(** The test of the comprehension of [delete_book]. *)
Definition kept (id : Z) (book : Book.t) : bool := negb (py_eq_int (Book.id book) id).

Definition text_fields (b : Book.t) : bool :=
  isinstance_str (Book.title b) && isinstance_str (Book.author b).

Section Steps.

Variable lower : string -> string.

(** The three steps of [search_book]. *)
Definition by_title (title : pyval) (results : list Book.t) : result (list Book.t) :=
  match title with
  | VNone => Ok results
  | VStr t => comprehension (fun book => lower_in lower t (Book.title book)) results
  | _ => Raise TypeError
  end.

Definition by_author (author : pyval) (results : list Book.t) : result (list Book.t) :=
  match author with
  | VNone => Ok results
  | VStr a => comprehension (fun book => lower_in lower a (Book.author book)) results
  | _ => Raise TypeError
  end.

Definition by_year (year : pyval) (results : list Book.t) : result (list Book.t) :=
  match year with
  | VNone => Ok results
  | _ =>
      match as_int year with
      | Some y => comprehension (fun book => Ok (py_eq_int (Book.year book) y)) results
      | None => Raise TypeError
      end
  end.

End Steps.

(** The invariant of a running process. *)
Definition counter_inv (self : Library) (hist : list Z) : Prop :=
  (forall b, In b (books self) -> exists i, as_int (Book.id b) = Some i)
  /\ (forall i, In i (int_ids (books self)) -> In i hist)
  /\ (forall i, In i hist -> i < next_id self)
  /\ (hist = [] -> next_id self = 1).

(** ** Instances for the examples *)

(** The restriction of [str.lower] to the letters A to Z, and decimal
    numerals without sign: the instances the examples are run with. *)
Definition lower_ascii_char (c : ascii) : ascii :=
  let n := nat_of_ascii c in
  if (Nat.leb 65 n && Nat.leb n 90)%bool then ascii_of_nat (n + 32) else c.

Fixpoint lower_ascii (s : string) : string :=
  match s with
  | EmptyString => EmptyString
  | String c s' => String (lower_ascii_char c) (lower_ascii s')
  end.

Fixpoint decimal_digits (s : string) (acc : Z) : option Z :=
  match s with
  | EmptyString => Some acc
  | String c s' =>
      let n := nat_of_ascii c in
      if (Nat.leb 48 n && Nat.leb n 57)%bool
      then decimal_digits s' (10 * acc + Z.of_nat (n - 48))
      else None
  end.

Definition decimal (s : string) : option Z :=
  match s with
  | EmptyString => None
  | _ => decimal_digits s 0
  end.

(** The scenario of the specification, run on the model. *)
Definition scenario : list call :=
  [ Add (VStr "1984") (VStr "Orwell") (VInt 1949);
    Add (VStr "Brave New World") (VStr "Huxley") (VInt 1932);
    ChangeStatus 1 (VStr Book.ISSUED);
    Delete 2 ].

Fixpoint run (cs : list call) (self : Library) : Library :=
  match cs with
  | [] => self
  | c :: cs' => run cs' (fst (perform lower_ascii decimal c self))
  end.

(** The catalog [Library()] builds when there is no data file yet. *)
Definition empty_library : Library := mkLibrary [] 1 (Json (VList [])) true.

(** Three contents of the data file that are JSON, but not the list of
    records [save_data] writes: an object, a record without its fields, and
    a record whose status is not one of the two. *)
Definition not_a_list : pyval := VDict [("books", VList [])].

Definition missing_fields : pyval := VList [VDict [("title", VStr "1984")]].

Definition lost_book : pyval :=
  VList [VDict [("id", VInt 1); ("title", VStr "1984"); ("author", VStr "Orwell");
                ("year", VInt 1949); ("status", VStr "lost")]].

(** [str.lower] on text made of ASCII letters, digits, spaces and the
    Greek letters alpha to omega in both cases, in UTF-8 (a Greek letter is
    two bytes, the first 0xCE or 0xCF).  A capital sigma becomes the final
    form when a letter precedes it and no letter follows it, and the other
    form otherwise; every other capital becomes its small letter.
    [after_cased] tells whether the character before is a letter. *)
Definition ascii_letter (c : ascii) : bool :=
  let n := nat_of_ascii c in
  ((Nat.leb 65 n && Nat.leb n 90) || (Nat.leb 97 n && Nat.leb n 122))%bool.

Definition starts_cased (s : string) : bool :=
  match s with
  | EmptyString => false
  | String c s' =>
      let n := nat_of_ascii c in
      if Nat.eqb n 206
      then match s' with
           | String d _ =>
               let m := nat_of_ascii d in
               ((Nat.leb 145 m && Nat.leb m 169 && negb (Nat.eqb m 162))
                || (Nat.leb 177 m && Nat.leb m 191))%bool
           | EmptyString => false
           end
      else if Nat.eqb n 207
      then match s' with
           | String d _ => let m := nat_of_ascii d in (Nat.leb 128 m && Nat.leb m 137)%bool
           | EmptyString => false
           end
      else ascii_letter c
  end.

Fixpoint lower_from (after_cased : bool) (s : string) : string :=
  match s with
  | EmptyString => EmptyString
  | String c s' =>
      let n := nat_of_ascii c in
      if Nat.eqb n 206
      then match s' with
           | String d s'' =>
               let m := nat_of_ascii d in
               if Nat.eqb m 163
               then (if (after_cased && negb (starts_cased s''))%bool then "ς" else "σ")
                    ++ lower_from true s''
               else if (Nat.leb 145 m && Nat.leb m 159)%bool
               then String c (String (ascii_of_nat (m + 32)) (lower_from true s''))
               else if (Nat.leb 160 m && Nat.leb m 169 && negb (Nat.eqb m 162))%bool
               then String (ascii_of_nat 207) (String (ascii_of_nat (m - 32)) (lower_from true s''))
               else String c (String d (lower_from (Nat.leb 177 m && Nat.leb m 191)%bool s''))
           | EmptyString => String c EmptyString
           end
      else if Nat.eqb n 207
      then match s' with
           | String d s'' =>
               let m := nat_of_ascii d in
               String c (String d (lower_from (Nat.leb 128 m && Nat.leb m 137)%bool s''))
           | EmptyString => String c EmptyString
           end
      else String (lower_ascii_char c) (lower_from (ascii_letter c) s')
  end.

Definition lower_greek (s : string) : string := lower_from false s.

(** A catalog with one book, whose title is in Greek capitals. *)
Definition odos : Library :=
  snd (add_book decimal (ATitle (VStr "ΟΔΟΣ")) (VStr "Seferis") (VInt 1931) empty_library).

(** ** Ids that are floating point numbers

    [json.load] returns a [float] for a number written with a fraction or
    an exponent, and [load_data] does not ask the id of a record to be an
    integer.  What the code computes from a data file whose ids are all
    floats is written here on the ids alone, over the binary64 numbers that
    Python's [float] is. *)
Module FloatIds.

Record t : Type := mk {
  ids : list float;     (* [book.id for book in self.books] *)
  next_id : float
}.

(** [max(ids)] of a non-empty list: the first id is kept until one that is
    greater comes. *)
Definition max (first : float) (rest : list float) : float :=
  fold_left (fun m x => if PrimFloat.ltb m x then x else m) rest first.

(** Lines 81 and 82 of [load_data] on a file that holds at least one
    record: [self.next_id = max(...) + 1], where 1 is converted to a float
    and the sum is rounded. *)
Definition load_data (first : float) (rest : list float) : t :=
  mk (first :: rest) (PrimFloat.add (max first rest) 1%float).

(** Lines 113 to 115 of [add_book]: the new book gets the counter as its
    id, and the counter moves. *)
Definition add_book (self : t) : t :=
  mk (ids self ++ [next_id self]) (PrimFloat.add (next_id self) 1%float).

End FloatIds.

(** * Properties *)

(** The scenario of the specification: two adds get the ids 1 and 2 and the
    status 'в наличии', a search for the author in lower case finds the
    second book alone, the status of book 1 is changed, book 2 is deleted,
    and deleting it again raises [BookNotFoundError]. *)
Example scenario_runs :
  exists b1 s1 b2 s2 s3 s4,
    add_book decimal (ATitle (VStr "1984")) (VStr "Orwell") (VInt 1949) empty_library
    = (Ok b1, s1)
    /\ Book.id b1 = VInt 1 /\ Book.status b1 = VStr Book.IN_STOCK
    /\ add_book decimal (ATitle (VStr "Brave New World")) (VStr "Huxley") (VInt 1932) s1
       = (Ok b2, s2)
    /\ Book.id b2 = VInt 2
    /\ search_book lower_ascii VNone (VStr "huxley") VNone s2 = (Ok [b2], s2)
    /\ change_status 1 (VStr Book.ISSUED) s2 = (Ok tt, s3)
    /\ map Book.status (books s3) = [VStr Book.ISSUED; VStr Book.IN_STOCK]
    /\ delete_book 2 s3 = (Ok tt, s4)
    /\ map Book.id (books s4) = [VInt 1]
    /\ delete_book 2 s4 = (Raise BookNotFoundError, s4)
    /\ s4 = run scenario empty_library.
Proof. do 6 eexists. repeat split; lazy; reflexivity. Qed.

(** ** Strings and comprehensions *)

Lemma prefix_refl (s : string) : String.prefix s s = true.
Proof.
  induction s as [|c s IH]; simpl; [reflexivity|].
  destruct (ascii_dec c c) as [_|ne]; [exact IH | now elim ne].
Qed.

Lemma is_substring_refl (s : string) : is_substring s s = true.
Proof.
  destruct s; simpl; [reflexivity|].
  rewrite prefix_refl.
  destruct (ascii_dec a a) as [_|ne]; [reflexivity | now elim ne].
Qed.

Lemma comprehension_filter {A : Type} (test : A -> result bool) (f : A -> bool) (l : list A) :
  (forall x, In x l -> test x = Ok (f x)) ->
  comprehension test l = Ok (filter f l).
Proof.
  induction l as [|x l IH]; intros H; simpl; [reflexivity|].
  rewrite (H x (or_introl eq_refl)), IH.
  - now destruct (f x).
  - intros y Hy. apply H. now right.
Qed.

Lemma prefix_app (a b : string) :
  String.prefix a b = true <-> exists q, b = a ++ q.
Proof.
  revert b. induction a as [|c a IH]; intros b.
  - split; [intros _; now exists b | intros _; now destruct b].
  - destruct b as [|d b]; simpl; [split; [discriminate | intros (q & [=])]|].
    destruct (ascii_dec c d) as [->|ne].
    + rewrite IH. split; intros (q & H); exists q; [now rewrite H | now injection H].
    + split; [discriminate | intros (q & [= H _]); now elim ne].
Qed.

(** [is_substring a b] says that [b] is [a] with something before and
    something after. *)
Lemma is_substring_app (a b : string) :
  is_substring a b = true <-> exists p q, b = p ++ a ++ q.
Proof.
  induction b as [|d b IH].
  - destruct a as [|c a]; simpl.
    + split; [intros _; now exists "", "" | reflexivity].
    + split; [discriminate | intros (p & q & H); destruct p; discriminate].
  - change (is_substring a (String d b))
      with (String.prefix a (String d b) || is_substring a b).
    rewrite orb_true_iff, prefix_app, IH. split.
    + intros [(q & H)|(p & q & H)]; [now exists "", q | exists (String d p), q; now rewrite H].
    + intros (p & q & H). destruct p as [|c p]; [left; now exists q|].
      right. injection H as _ H. now exists p, q.
Qed.

(** ** What each method does to the state *)

Ltac run_method :=
  cbv [bind ret raise lift gets modify save_data
       set_books set_next_id set_data_file
       books next_id data_file io_ok].

Lemma save_data_eq (self : Library) : save_data self = (Ok tt, saved self).
Proof. unfold save_data, saved. now destruct (io_ok self). Qed.

Lemma saved_books (self : Library) : books (saved self) = books self.
Proof. unfold saved. now destruct (io_ok self). Qed.

Lemma saved_next_id (self : Library) : next_id (saved self) = next_id self.
Proof. unfold saved. now destruct (io_ok self). Qed.


Lemma saved_data_file (self : Library) :
  io_ok self = true ->
  data_file (saved self) = Json (VList (map Book.to_dict (books self))).
Proof. unfold saved. intros ->. reflexivity. Qed.

Lemma register_eq (book : Book.t) (self : Library) :
  register book self
  = (Ok (Book.set_id (VInt (next_id self)) book),
     added (Book.set_id (VInt (next_id self)) book) self).
Proof.
  unfold register, added, saved. destruct self as [bs n f w].
  run_method. now destruct w.
Qed.

Section MethodFacts.

Variable lower : string -> string.
Variable int_of_str : string -> option Z.

Lemma add_book_ok (title author year : pyval) (y : Z) (self : Library) :
  truthy title = true -> truthy author = true -> truthy year = true ->
  py_int int_of_str year = Ok y ->
  add_book int_of_str (ATitle title) author year self
  = (Ok (new_book self title author y), added (new_book self title author y) self).
Proof.
  intros Ht Ha Hy Hint. unfold add_book.
  rewrite Ht, Ha, Hy, Hint. simpl.
  unfold bind, lift. simpl. now rewrite register_eq.
Qed.

(** [add_book] either stores the new record under the current counter, or
    raises and leaves the state as it was. *)
Lemma add_book_inv (title author year : pyval) (self self' : Library) (r : result Book.t) :
  add_book int_of_str (ATitle title) author year self = (r, self') ->
  (exists y, py_int int_of_str year = Ok y
             /\ r = Ok (new_book self title author y)
             /\ self' = added (new_book self title author y) self)
  \/ (exists e, r = Raise e /\ self' = self).
Proof.
  unfold add_book.
  destruct (negb (truthy title) || negb (truthy author) || negb (truthy year)) eqn:E.
  - unfold raise. intros [= <- <-]. right. eauto.
  - destruct (py_int int_of_str year) as [y|e] eqn:Hint.
    + unfold bind, lift. simpl. rewrite register_eq. intros [= <- <-].
      left. exists y. auto.
    + destruct e; unfold raise; intros [= <- <-]; right; eauto.
Qed.

(** It returns only when the title and the author are truthy. *)
Lemma add_book_truthy (title author year : pyval) (self self' : Library) (book : Book.t) :
  add_book int_of_str (ATitle title) author year self = (Ok book, self') ->
  truthy title = true /\ truthy author = true.
Proof.
  unfold add_book.
  destruct (truthy title), (truthy author); simpl; try (unfold raise; discriminate).
  auto.
Qed.

Lemma delete_book_eq (id : Z) (self : Library) :
  delete_book id self =
  let kept := filter (fun book => negb (py_eq_int (Book.id book) id)) (books self) in
  if Nat.eqb (List.length kept) (List.length (books self))
  then (Raise BookNotFoundError, set_books kept self)
  else (Ok tt, saved (set_books kept self)).
Proof.
  unfold delete_book. cbv [bind gets modify]. cbv zeta.
  destruct (Nat.eqb _ _); [reflexivity|].
  now rewrite save_data_eq.
Qed.

Lemma change_status_eq (id : Z) (status : pyval) (self : Library) :
  change_status id status self =
  if Book.valid_status status
  then match set_first_status id status (books self) with
       | Some bs' => (Ok tt, saved (set_books bs' self))
       | None => (Raise BookNotFoundError, self)
       end
  else (Raise InvalidStatusError, self).
Proof.
  unfold change_status. destruct (Book.valid_status status); simpl; [|reflexivity].
  cbv [bind gets modify raise].
  destruct (set_first_status id status (books self)); [|reflexivity].
  now rewrite save_data_eq.
Qed.

(** [search_book] never touches the state, whatever it is given. *)
Lemma search_book_state (title author year : pyval) (self : Library) :
  snd (search_book lower title author year self) = self.
Proof.
  unfold search_book. cbv [bind gets ret raise lift].
  destruct title; try reflexivity;
  repeat match goal with
  | |- context [comprehension ?t ?l] => destruct (comprehension t l)
  | |- context [match ?v with VNone => _ | _ => _ end] => destruct v
  | |- context [match as_int ?v with _ => _ end] => destruct (as_int v)
  end; reflexivity.
Qed.

End MethodFacts.

(** ** Hydration from the data file *)

Lemma load_loop_cons (x : pyval) (items : list pyval) (self : Library) :
  load_loop (x :: items) self =
  match book_of_data x with
  | Raise e => (Raise e, self)
  | Ok b => load_loop items (set_books (books self ++ [b]) self)
  end.
Proof.
  unfold load_loop. simpl. unfold load_one. cbv [bind lift modify].
  now destruct (book_of_data x).
Qed.

Lemma load_loop_ok (items : list pyval) (bs : list Book.t) (self : Library) :
  parse_books items = Ok bs ->
  load_loop items self = (Ok tt, set_books (books self ++ bs) self).
Proof.
  revert bs self. induction items as [|x items IH]; intros bs self.
  - intros [= <-]. rewrite app_nil_r. now destruct self.
  - rewrite load_loop_cons. simpl.
    destruct (book_of_data x) as [b|e]; [|discriminate].
    destruct (parse_books items) as [bs'|e]; [|discriminate].
    intros [= <-]. rewrite (IH bs' _ eq_refl). simpl. now rewrite <- app_assoc.
Qed.

Lemma load_loop_raise (items : list pyval) (e : exn) (self : Library) :
  parse_books items = Raise e ->
  fst (load_loop items self) = Raise e.
Proof.
  revert self. induction items as [|x items IH]; intros self; [discriminate|].
  rewrite load_loop_cons. simpl.
  destruct (book_of_data x) as [b|e'].
  - destruct (parse_books items) as [bs'|e']; [discriminate|].
    intros [= ->]. now apply IH.
  - now intros [= ->].
Qed.

Lemma init_eq (file : resource) (writable : bool) :
  __init__ file writable =
  match hydrated file with
  | Ok (bs, n) => Ok (saved (mkLibrary bs n file writable))
  | Raise e => Raise e
  end.
Proof.
  unfold __init__, bind, load_data. simpl data_file.
  destruct file as [| | | | | |data]; simpl hydrated;
    try (now rewrite save_data_eq); try reflexivity.
  cbv [bind lift modify gets]. simpl.
  destruct (py_iter data) as [items|e]; [|reflexivity].
  fold (load_loop items).
  destruct (parse_books items) as [bs|e] eqn:Hp.
  - rewrite (load_loop_ok items bs _ Hp). simpl.
    destruct bs as [|b bs]; [now rewrite save_data_eq|].
    destruct (max_id_plus_one (b :: bs)); [now rewrite save_data_eq | reflexivity].
  - pose proof (load_loop_raise items e (set_books [] (mkLibrary [] 1 (Json data) writable)) Hp) as H.
    destruct (load_loop items _) as [[u|e0] s]; simpl in H; [discriminate|].
    now injection H as ->.
Qed.

Lemma load_data_json (self : Library) (data : pyval) (items : list pyval)
    (bs : list Book.t) (n : Z) :
  data_file self = Json data ->
  py_iter data = Ok items ->
  parse_books items = Ok bs ->
  hydrated (Json data) = Ok (bs, n) ->
  load_data self = (Ok tt, mkLibrary bs n (data_file self) (io_ok self)).
Proof.
  intros Hf Hi Hp Hh. destruct self as [bs0 n0 f w]. simpl in Hf. subst f.
  unfold load_data. simpl data_file.
  cbv [bind lift modify gets]. rewrite Hi. fold (load_loop items).
  rewrite (load_loop_ok items bs _ Hp). simpl in *.
  rewrite Hi, Hp in Hh.
  destruct bs as [|b bs]; [now injection Hh as <-|].
  destruct (max_id_plus_one (b :: bs)); [now injection Hh as <- | discriminate].
Qed.

(** ** The methods beyond the digits limit *)

Lemma limit_save_data_eq (self : Library) : Limit.save_data self = then_save tt self.
Proof.
  unfold Limit.save_data, then_save, saved.
  destruct (io_ok self), (dumpable_catalog self); reflexivity.
Qed.

Lemma then_save_books {A : Type} (a : A) (self : Library) :
  books (snd (then_save a self)) = books self.
Proof.
  unfold then_save. destruct (io_ok self && _); [reflexivity | apply saved_books].
Qed.

Lemma then_save_next_id {A : Type} (a : A) (self : Library) :
  next_id (snd (then_save a self)) = next_id self.
Proof.
  unfold then_save. destruct (io_ok self && _); [reflexivity | apply saved_next_id].
Qed.


Lemma then_save_dumpable {A : Type} (a : A) (self : Library) :
  dumpable_catalog (snd (then_save a self)) = dumpable_catalog self.
Proof. unfold dumpable_catalog. now rewrite then_save_books. Qed.

(** On a catalog that can be written, the two ways of saving agree. *)
Lemma then_save_ok {A : Type} (a : A) (self : Library) :
  dumpable_catalog self = true -> then_save a self = (Ok a, saved self).
Proof. unfold then_save. intros ->. now rewrite andb_false_r. Qed.



Lemma limit_register_eq (book : Book.t) (self : Library) :
  Limit.register book self
  = then_save (Book.set_id (VInt (next_id self)) book)
      (mkLibrary (books self ++ [Book.set_id (VInt (next_id self)) book])
                 (next_id self + 1) (data_file self) (io_ok self)).
Proof.
  unfold Limit.register. cbv [bind gets modify ret]. cbv zeta.
  rewrite limit_save_data_eq. unfold then_save, set_books, set_next_id. simpl.
  now destruct (io_ok self && _).
Qed.

Section LimitFacts.

Variable lower : string -> string.
Variable int_of_str : string -> option Z.

(** [Limit.add_book] is [add_book] up to the call of [save_data]. *)
Lemma limit_add_book_eq (arg : book_or_title) (author year : pyval) (self : Library) :
  Limit.add_book int_of_str arg author year self
  = match add_book int_of_str arg author year self with
    | (Ok book, _) =>
        then_save book (mkLibrary (books self ++ [book]) (next_id self + 1)
                                  (data_file self) (io_ok self))
    | (Raise e, self') => (Raise e, self')
    end.
Proof.
  destruct arg as [book|title]; unfold Limit.add_book, add_book.
  - destruct (negb (truthy (Book.title book)) || _ || _); [reflexivity|].
    destruct (negb (isinstance_int (Book.year book))); [reflexivity|].
    now rewrite register_eq, limit_register_eq.
  - destruct (negb (truthy title) || _ || _); [reflexivity|].
    destruct (py_int int_of_str year) as [y|e]; [|now destruct e].
    unfold bind, lift. simpl. now rewrite register_eq, limit_register_eq.
Qed.

Lemma limit_delete_book_eq (id : Z) (self : Library) :
  Limit.delete_book id self =
  let kept := filter (fun book => negb (py_eq_int (Book.id book) id)) (books self) in
  if Nat.eqb (List.length kept) (List.length (books self))
  then (Raise (if printable id then BookNotFoundError else ValueError), set_books kept self)
  else then_save tt (set_books kept self).
Proof.
  unfold Limit.delete_book, Limit.not_found. cbv [bind gets modify]. cbv zeta.
  destruct (Nat.eqb _ _); [now destruct (printable id)|].
  now rewrite limit_save_data_eq.
Qed.

Lemma limit_change_status_eq (id : Z) (status : pyval) (self : Library) :
  Limit.change_status id status self =
  if Book.valid_status status
  then match set_first_status id status (books self) with
       | Some bs' => then_save tt (set_books bs' self)
       | None => (Raise (if printable id then BookNotFoundError else ValueError), self)
       end
  else (Raise InvalidStatusError, self).
Proof.
  unfold Limit.change_status, Limit.not_found.
  destruct (Book.valid_status status); simpl; [|reflexivity].
  cbv [bind gets modify raise].
  destruct (set_first_status id status (books self)); [|now destruct (printable id)].
  now rewrite limit_save_data_eq.
Qed.

(** The two models of a method agree when the catalog the call leaves can
    be written (and, for a call that finds no book, when the id can be
    printed). *)
Lemma limit_add_book (arg : book_or_title) (author year : pyval) (self : Library) :
  dumpable_catalog (snd (Limit.add_book int_of_str arg author year self)) = true ->
  Limit.add_book int_of_str arg author year self = add_book int_of_str arg author year self.
Proof.
  rewrite limit_add_book_eq.
  assert (forall book self', add_book int_of_str arg author year self = (Ok book, self') ->
                             self' = added book self) as Hadd.
  { intros book self'. destruct arg as [b|title]; unfold add_book.
    - destruct (negb (truthy (Book.title b)) || _ || _); [discriminate|].
      destruct (negb (isinstance_int (Book.year b))); [discriminate|].
      rewrite register_eq. now intros [= <- <-].
    - destruct (negb (truthy title) || _ || _); [discriminate|].
      destruct (py_int int_of_str year) as [y|e]; [|now destruct e].
      unfold bind, lift. simpl. rewrite register_eq. now intros [= <- <-]. }
  destruct (add_book int_of_str arg author year self) as [[book|e] self'] eqn:E;
    [|reflexivity].
  rewrite then_save_dumpable. intros Hd. rewrite (then_save_ok _ _ Hd).
  now rewrite (Hadd book self' eq_refl).
Qed.

Lemma limit_delete_book (id : Z) (self : Library) :
  printable id = true ->
  dumpable_catalog (snd (Limit.delete_book id self)) = true ->
  Limit.delete_book id self = delete_book id self.
Proof.
  intros Hid. rewrite limit_delete_book_eq, delete_book_eq. cbv zeta. rewrite Hid.
  destruct (Nat.eqb _ _); [reflexivity|].
  rewrite then_save_dumpable. intros Hd. now rewrite (then_save_ok _ _ Hd).
Qed.

Lemma limit_change_status (id : Z) (status : pyval) (self : Library) :
  printable id = true ->
  dumpable_catalog (snd (Limit.change_status id status self)) = true ->
  Limit.change_status id status self = change_status id status self.
Proof.
  intros Hid. rewrite limit_change_status_eq, change_status_eq, Hid.
  destruct (Book.valid_status status); [|reflexivity].
  destruct (set_first_status id status (books self)); [|reflexivity].
  rewrite then_save_dumpable. intros Hd. now rewrite (then_save_ok _ _ Hd).
Qed.


End LimitFacts.

(** What [load_data] makes of the object [Library()] starts with. *)
Lemma load_data_start (file : resource) (writable : bool) :
  match hydrated file with
  | Ok (bs, n) =>
      load_data (mkLibrary [] 1 file writable) = (Ok tt, mkLibrary bs n file writable)
  | Raise e => fst (load_data (mkLibrary [] 1 file writable)) = Raise e
  end.
Proof.
  unfold load_data. simpl data_file.
  destruct file as [| | | | | |data]; simpl hydrated; try reflexivity.
  cbv [bind lift modify gets]. simpl.
  destruct (py_iter data) as [items|e]; [|reflexivity].
  fold (load_loop items).
  destruct (parse_books items) as [bs|e] eqn:Hp.
  - rewrite (load_loop_ok items bs _ Hp). simpl.
    destruct bs as [|b bs]; [reflexivity|].
    now destruct (max_id_plus_one (b :: bs)).
  - pose proof (load_loop_raise items e (set_books [] (mkLibrary [] 1 (Json data) writable)) Hp) as H.
    destruct (load_loop items _) as [[u|e0] s]; simpl in H; [discriminate|].
    now injection H as ->.
Qed.

Lemma limit_init_eq (file : resource) (writable : bool) :
  Limit.__init__ file writable =
  match hydrated file with
  | Ok (bs, n) =>
      match then_save tt (mkLibrary bs n file writable) with
      | (Ok _, self) => Ok self
      | (Raise e, _) => Raise e
      end
  | Raise e => Raise e
  end.
Proof.
  unfold Limit.__init__, bind.
  pose proof (load_data_start file writable) as H.
  destruct (hydrated file) as [[bs n]|e].
  - now rewrite H, limit_save_data_eq.
  - destruct (load_data _) as [[u|e0] s]; simpl in H; [discriminate|].
    now injection H as ->.
Qed.


Lemma limit_init_ok (file : resource) (writable : bool) (self : Library) :
  __init__ file writable = Ok self ->
  dumpable_catalog self = true ->
  Limit.__init__ file writable = Ok self.
Proof.
  rewrite limit_init_eq, init_eq.
  destruct (hydrated file) as [[bs n]|e]; [|discriminate].
  intros [= <-]. unfold dumpable_catalog at 1. rewrite saved_books. intros Hd.
  now rewrite (then_save_ok tt _ Hd).
Qed.

(** ** The counter and the ids *)

Lemma int_ids_app (l1 l2 : list Book.t) :
  int_ids (l1 ++ l2) = (int_ids l1 ++ int_ids l2)%list.
Proof. unfold int_ids. apply flat_map_app. Qed.

Lemma in_int_ids (i : Z) (bs : list Book.t) :
  In i (int_ids bs) <-> exists b, In b bs /\ as_int (Book.id b) = Some i.
Proof.
  unfold int_ids. rewrite in_flat_map. split.
  - intros (b & Hb & Hi). exists b. split; [exact Hb|].
    destruct (as_int (Book.id b)); simpl in Hi; [|contradiction].
    destruct Hi as [->|[]]. reflexivity.
  - intros (b & Hb & Hi). exists b. split; [exact Hb|]. rewrite Hi. now left.
Qed.

Lemma max_int_bound (ids : list pyval) (m : Z) :
  max_int ids = Some m ->
  forall v, In v ids -> exists i, as_int v = Some i /\ i <= m.
Proof.
  revert m. induction ids as [|v ids IH]; intros m; simpl; [discriminate|].
  destruct (as_int v) as [z|] eqn:Hv; [|now destruct ids].
  destruct ids as [|w ids].
  - intros [= <-] x [<-|[]]. exists z. split; [exact Hv | lia].
  - destruct (max_int (w :: ids)) as [m'|] eqn:Hm; simpl; [|discriminate].
    intros [= <-] x [<-|Hx].
    + exists z. split; [exact Hv | lia].
    + destruct (IH m' eq_refl x Hx) as (i & Hi & Hle). exists i. split; [exact Hi | lia].
Qed.

(** After [Library()], every book has an integer id below the counter, and
    the counter of an empty catalog is 1. *)
Lemma hydrated_counter (file : resource) (bs : list Book.t) (n : Z) :
  hydrated file = Ok (bs, n) ->
  (forall b, In b bs -> exists i, as_int (Book.id b) = Some i /\ i < n)
  /\ (bs = [] -> n = 1).
Proof.
  destruct file as [| | | | | |data]; simpl;
    try (intros [= <- <-]; split; [intros b [] | reflexivity]); try discriminate.
  destruct (py_iter data) as [items|e]; [|discriminate].
  destruct (parse_books items) as [[|b0 bs0]|e]; [| |discriminate].
  - intros [= <- <-]. split; [intros b [] | reflexivity].
  - unfold max_id_plus_one.
    destruct (max_int (map Book.id (b0 :: bs0))) as [m|] eqn:Hm; [|discriminate].
    intros [= <- <-]. split; [|discriminate].
    intros b Hb.
    destruct (max_int_bound _ m Hm (Book.id b) (in_map Book.id _ _ Hb)) as (i & Hi & Hle).
    exists i. split; [exact Hi | lia].
Qed.

Lemma set_first_status_ids (id : Z) (status : pyval) (bs bs' : list Book.t) :
  set_first_status id status bs = Some bs' ->
  map Book.id bs' = map Book.id bs.
Proof.
  revert bs'. induction bs as [|b bs IH]; intros bs'; simpl; [discriminate|].
  destruct (py_eq_int (Book.id b) id).
  - now intros [= <-].
  - destruct (set_first_status id status bs) as [l|]; simpl; [|discriminate].
    intros [= <-]. simpl. now rewrite (IH l eq_refl).
Qed.

Lemma int_ids_map (bs bs' : list Book.t) :
  map Book.id bs' = map Book.id bs -> int_ids bs' = int_ids bs.
Proof.
  revert bs'. induction bs as [|b bs IH]; intros [|b' bs']; simpl; try discriminate.
  - reflexivity.
  - intros [= Hb Hbs]. rewrite Hb. f_equal. now apply IH.
Qed.

Lemma int_ids_filter (f : Book.t -> bool) (bs : list Book.t) (i : Z) :
  In i (int_ids (filter f bs)) -> In i (int_ids bs).
Proof.
  rewrite !in_int_ids. intros (b & Hb & Hi). exists b.
  apply filter_In in Hb. tauto.
Qed.

Section Counter.

Variable lower : string -> string.
Variable int_of_str : string -> option Z.

(** What a call does to the ids and to the counter. *)
Lemma perform_ids (c : call) (self : Library) :
  let self' := fst (perform lower int_of_str c self) in
  let new := snd (perform lower int_of_str c self) in
  (forall i, In i (int_ids (books self')) -> In i (int_ids (books self)) \/ In i new)
  /\ (new = [] /\ next_id self' = next_id self
      \/ new = [next_id self] /\ next_id self' = next_id self + 1).
Proof.
  cbv zeta. destruct c as [title author year|id|id status|title author year]; unfold perform.
  - destruct (add_book int_of_str (ATitle title) author year self) as [r self'] eqn:E.
    apply add_book_inv in E. destruct E as [(y & _ & -> & ->)|(e & -> & ->)]; cbn [fst snd].
    + unfold added. rewrite saved_books, saved_next_id. simpl.
      split; [|right; now split].
      intros i. rewrite int_ids_app, in_app_iff. tauto.
    + split; [tauto | left; now split].
  - rewrite delete_book_eq. cbv zeta.
    destruct (Nat.eqb _ _); cbn [fst snd]; rewrite ?saved_books, ?saved_next_id; simpl;
      (split; [intros i Hi; left; eapply int_ids_filter; exact Hi | left; now split]).
  - rewrite change_status_eq.
    destruct (Book.valid_status status); cbn [fst snd]; [|split; [tauto | left; now split]].
    destruct (set_first_status id status (books self)) as [bs'|] eqn:E; cbn [fst snd];
      [|split; [tauto | left; now split]].
    rewrite saved_books, saved_next_id. simpl.
    rewrite (int_ids_map _ _ (set_first_status_ids _ _ _ _ E)).
    split; [tauto | left; now split].
  - cbn [fst snd]. rewrite search_book_state. split; [tauto | left; now split].
Qed.

Lemma perform_typed (c : call) (self : Library) :
  (forall b, In b (books self) -> exists i, as_int (Book.id b) = Some i) ->
  forall b, In b (books (fst (perform lower int_of_str c self))) ->
            exists i, as_int (Book.id b) = Some i.
Proof.
  intros H.
  destruct c as [title author year|id|id status|title author year]; unfold perform.
  - destruct (add_book int_of_str (ATitle title) author year self) as [r self'] eqn:E.
    apply add_book_inv in E.
    destruct E as [(y & _ & -> & ->)|(e & -> & ->)]; cbn [fst snd]; [|exact H].
    unfold added. rewrite saved_books. simpl. intros b Hb.
    apply in_app_iff in Hb. destruct Hb as [Hb|[<-|[]]]; [now apply H|].
    simpl. eauto.
  - rewrite delete_book_eq. cbv zeta.
    destruct (Nat.eqb _ _); cbn [fst snd]; rewrite ?saved_books; simpl;
      intros b Hb; apply filter_In in Hb; now apply H.
  - rewrite change_status_eq.
    destruct (Book.valid_status status); cbn [fst snd]; [|exact H].
    destruct (set_first_status id status (books self)) as [bs'|] eqn:E; cbn [fst snd];
      [|exact H].
    rewrite saved_books. simpl. intros b Hb.
    apply (in_map Book.id) in Hb. rewrite (set_first_status_ids _ _ _ _ E) in Hb.
    apply in_map_iff in Hb. destruct Hb as (b0 & Hid & Hb0).
    rewrite <- Hid. now apply H.
  - cbn [fst snd]. now rewrite search_book_state.
Qed.

Lemma process_counter_inv (self : Library) (hist : list Z) :
  process lower int_of_str self hist -> counter_inv self hist.
Proof.
  induction 1 as [file writable self Hinit | c self hist Hp IH].
  - rewrite init_eq in Hinit.
    destruct (hydrated file) as [[bs n]|e] eqn:Hh; [|discriminate].
    injection Hinit as <-. unfold counter_inv. rewrite saved_books, saved_next_id. simpl.
    destruct (hydrated_counter _ _ _ Hh) as [Hlt Hone].
    repeat split.
    + intros b Hb. destruct (Hlt b Hb) as (i & Hi & _). eauto.
    + auto.
    + intros i Hi. apply in_int_ids in Hi. destruct Hi as (b & Hb & Hi).
      destruct (Hlt b Hb) as (j & Hj & Hlt'). congruence.
    + intros Hnil. apply Hone. destruct bs as [|b bs]; [reflexivity|].
      destruct (Hlt b (or_introl eq_refl)) as (i & Hi & _).
      simpl in Hnil. rewrite Hi in Hnil. discriminate.
  - destruct IH as (Hty & Hin & Hlt & Hone).
    pose proof (perform_ids c self) as [Hids Hnew]. cbv zeta in Hids, Hnew.
    repeat split.
    + now apply perform_typed.
    + intros i Hi. apply in_app_iff. destruct (Hids i Hi); auto.
    + intros i Hi. apply in_app_iff in Hi.
      destruct Hnew as [[Hn Hc]|[Hn Hc]]; rewrite Hn in Hi; rewrite Hc.
      * destruct Hi as [Hi|[]]. now apply Hlt.
      * destruct Hi as [Hi|[<-|[]]]; [apply Hlt in Hi|]; lia.
    + intros Hnil. apply app_eq_nil in Hnil. destruct Hnil as [Hh Hn].
      destruct Hnew as [[_ Hc]|[Hn' _]]; [rewrite Hc; now apply Hone | congruence].
Qed.

End Counter.

(** ** Searching *)

Section Search.

Variable lower : string -> string.

Lemma search_book_eq (title author year : pyval) (self : Library) :
  search_book lower title author year self =
  match by_title lower title (books self) with
  | Raise e => (Raise e, self)
  | Ok r1 =>
      match by_author lower author r1 with
      | Raise e => (Raise e, self)
      | Ok r2 =>
          match by_year year r2 with
          | Raise e => (Raise e, self)
          | Ok r3 => (Ok r3, self)
          end
      end
  end.
Proof.
  unfold search_book, by_title, by_author, by_year. cbv [bind gets ret raise lift].
  destruct title; try reflexivity;
    [| destruct (comprehension _ (books self)); [|reflexivity]];
    (destruct author; try reflexivity;
     [| match goal with |- context [comprehension ?t ?l] => destruct (comprehension t l) end;
        [|reflexivity]]);
    (destruct year; try reflexivity;
     match goal with
     | |- context [match as_int ?v with _ => _ end] => destruct (as_int v); try reflexivity
     end;
     match goal with |- context [comprehension ?t ?l] => destruct (comprehension t l) end;
     reflexivity).
Qed.

Lemma valid_record_text (b : Book.t) : valid_record b = true -> text_fields b = true.
Proof.
  unfold valid_record, text_fields.
  destruct (Book.id b), (Book.title b), (Book.author b); try discriminate; reflexivity.
Qed.

Lemma forallb_sub {A : Type} (f : A -> bool) (g : A -> bool) (l : list A) :
  forallb f l = true -> forallb f (filter g l) = true.
Proof.
  rewrite !forallb_forall. intros H x Hx. apply filter_In in Hx. now apply H.
Qed.

Lemma filter_filter {A : Type} (f g : A -> bool) (l : list A) :
  filter g (filter f l) = filter (fun x => f x && g x) l.
Proof.
  induction l as [|x l IH]; simpl; [reflexivity|].
  destruct (f x); simpl; [destruct (g x)|]; now rewrite IH.
Qed.

Lemma by_title_text (title : pyval) (l : list Book.t) :
  forallb text_fields l = true ->
  by_title lower title l = if str_filter title then Ok (filter (title_test lower title) l) else Raise TypeError.
Proof.
  intros H. destruct title; simpl; try reflexivity.
  - clear H. induction l; simpl; congruence.
  - apply comprehension_filter. intros b Hb.
    rewrite forallb_forall in H. specialize (H b Hb). unfold text_fields in H.
    unfold lower_in, title_test, contains_ci.
    destruct (Book.title b); try discriminate. reflexivity.
Qed.

Lemma by_author_text (author : pyval) (l : list Book.t) :
  forallb text_fields l = true ->
  by_author lower author l = if str_filter author then Ok (filter (author_test lower author) l) else Raise TypeError.
Proof.
  intros H. destruct author; simpl; try reflexivity.
  - clear H. induction l; simpl; congruence.
  - apply comprehension_filter. intros b Hb.
    rewrite forallb_forall in H. specialize (H b Hb). unfold text_fields in H.
    apply andb_prop in H. destruct H as [_ H].
    unfold lower_in, author_test, contains_ci.
    destruct (Book.author b); try discriminate. reflexivity.
Qed.

Lemma by_year_eq (year : pyval) (l : list Book.t) :
  by_year year l = if int_filter year then Ok (filter (year_test year) l) else Raise TypeError.
Proof.
  destruct year; simpl; try reflexivity.
  - induction l; simpl; congruence.
  - now apply comprehension_filter.
  - now apply comprehension_filter.
Qed.

(** On a catalog whose titles and authors are strings, [search_book] with
    filters of the right types returns the records that pass the three
    tests, in the order of the catalog. *)
Lemma search_book_filter (title author year : pyval) (self : Library) :
  forallb text_fields (books self) = true ->
  str_filter title = true -> str_filter author = true -> int_filter year = true ->
  search_book lower title author year self
  = (Ok (filter (matches lower title author year) (books self)), self).
Proof.
  intros H Ht Ha Hy. rewrite search_book_eq.
  rewrite (by_title_text _ _ H), Ht.
  rewrite (by_author_text _ _ (forallb_sub _ _ _ H)), Ha.
  rewrite by_year_eq, Hy.
  rewrite (filter_filter (title_test lower title) (author_test lower author)).
  now rewrite filter_filter.
Qed.

(** With a filter of the wrong type it raises [TypeError]. *)
Lemma search_book_wrong_type (title author year : pyval) (self : Library) :
  forallb text_fields (books self) = true ->
  str_filter title && str_filter author && int_filter year = false ->
  search_book lower title author year self = (Raise TypeError, self).
Proof.
  intros H Hw. rewrite search_book_eq.
  rewrite (by_title_text _ _ H).
  destruct (str_filter title); [|reflexivity].
  rewrite (by_author_text _ _ (forallb_sub _ _ _ H)).
  destruct (str_filter author); [|reflexivity].
  rewrite by_year_eq.
  destruct (int_filter year); [discriminate | reflexivity].
Qed.

End Search.

(** * The claims of the specification *)

Lemma non_empty_truthy (s : string) : s <> "" -> truthy (VStr s) = true.
Proof. intros H. simpl. apply negb_true_iff. now apply String.eqb_neq. Qed.

Lemma forallb_valid_text (bs : list Book.t) :
  forallb valid_record bs = true -> forallb text_fields bs = true.
Proof.
  rewrite !forallb_forall. intros H b Hb. apply valid_record_text. now apply H.
Qed.

Lemma process_empty (lower : string -> string) (int_of_str : string -> option Z) :
  process lower int_of_str empty_library [].
Proof. exact (process_start lower int_of_str Absent true empty_library eq_refl). Qed.

(** [Library()] that finds no record starts the counter at 1. *)
Lemma init_empty_counter (file : resource) (writable : bool) (self : Library) :
  __init__ file writable = Ok self -> books self = [] -> next_id self = 1.
Proof.
  rewrite init_eq. destruct (hydrated file) as [[bs n]|e] eqn:Hh; [|discriminate].
  intros [= <-]. rewrite saved_books, saved_next_id. simpl.
  exact (proj2 (hydrated_counter _ _ _ Hh)).
Qed.

(** The part of C4 the code keeps.  In every state reached by a process
    that started on a data file without floating point numbers, or on none
    ([Library()] on any file of [resource], then any calls of add with a
    title, an author and a year, of delete, change_status and search), every
    record has an integer id below the counter [next_id]; as long as no
    record has existed in the process (an empty catalog at the start) the
    counter is 1; and a successful add assigns the counter itself, which no
    record of this process has had before, deleted or not, and moves the
    counter up by 1. *)
Lemma counter_above_ids (lower : string -> string) (int_of_str : string -> option Z)
    (self : Library) (hist : list Z) :
  process lower int_of_str self hist ->
  (forall b, In b (books self) ->
     exists i, as_int (Book.id b) = Some i /\ In i hist /\ i < next_id self)
  /\ (forall i, In i hist -> i < next_id self)
  /\ (hist = [] -> books self = [] /\ next_id self = 1)
  /\ (forall title author year book self',
        add_book int_of_str (ATitle title) author year self = (Ok book, self') ->
        Book.id book = VInt (next_id self)
        /\ ~ In (next_id self) hist
        /\ next_id self' = next_id self + 1).
Proof.
  intros Hp. destruct (process_counter_inv _ _ _ _ Hp) as (Hty & Hin & Hlt & Hone).
  split; [|split; [exact Hlt|split]].
  - intros b Hb. destruct (Hty b Hb) as (i & Hi). exists i.
    assert (In i hist) by (apply Hin, in_int_ids; eauto). auto.
  - intros Hnil. split; [|now apply Hone].
    destruct (books self) as [|b bs] eqn:E; [reflexivity|].
    destruct (Hty b (or_introl eq_refl)) as (i & Hi).
    assert (In i hist) as Hih by (apply Hin, in_int_ids; exists b; split; [now left | exact Hi]).
    rewrite Hnil in Hih. destruct Hih.
  - intros title author year book self' Hadd.
    apply add_book_inv in Hadd.
    destruct Hadd as [(y & _ & [= ->] & ->)|(e & [=] & _)].
    split; [reflexivity|]. split.
    + intros Hi. apply Hlt in Hi. lia.
    + unfold added. now rewrite saved_next_id.
Qed.

(** The invariant at the end of the scenario: the ids 1 and 2 have been
    assigned, book 2 is gone, and the counter is 3. *)
Example counter_above_ids_scenario :
  process lower_ascii decimal (run scenario empty_library) [1; 2]
  /\ next_id (run scenario empty_library) = 3
  /\ forall b, In b (books (run scenario empty_library)) ->
       exists i, as_int (Book.id b) = Some i /\ In i [1; 2] /\ i < 3.
Proof.
  assert (process lower_ascii decimal (run scenario empty_library) [1; 2]) as Hp.
  { pose proof (process_empty lower_ascii decimal) as H0.
    pose proof (process_call _ _ (Add (VStr "1984") (VStr "Orwell") (VInt 1949)) _ _ H0) as H1.
    pose proof (process_call _ _ (Add (VStr "Brave New World") (VStr "Huxley") (VInt 1932)) _ _ H1) as H2.
    pose proof (process_call _ _ (ChangeStatus 1 (VStr Book.ISSUED)) _ _ H2) as H3.
    exact (process_call _ _ (Delete 2) _ _ H3). }
  split; [exact Hp|]. split; [reflexivity|].
  exact (proj1 (counter_above_ids lower_ascii decimal _ _ Hp)).
Defined.

(** C4, where the code departs from it.  On a data file whose one record
    has the id 1e16, which [json.load] returns as a float, the counter
    [load_data] computes is 1e16 + 1, which is 1e16 again: the counter is
    not above the id, and the next add gives the new book the id the first
    one has. *)
Theorem float_id_meets_counter :
  FloatIds.next_id (FloatIds.load_data 1e16 []) = 1e16%float
  /\ PrimFloat.ltb 1e16 (FloatIds.next_id (FloatIds.load_data 1e16 [])) = false
  /\ FloatIds.ids (FloatIds.add_book (FloatIds.load_data 1e16 [])) = [1e16; 1e16]%float.
Proof. repeat split; reflexivity. Qed.

(** The part of C1 the code keeps.  In a process whose records are valid,
    adding a non-empty title, a non-empty author and an integer year other
    than 0 succeeds when the catalog with the new book can be written, and
    searching for that title then returns a sequence that contains the new
    record: it has that title, and its id is above every id a record has
    had in this process (those assigned by earlier adds and those read from
    the file). *)
Lemma add_then_search (lower : string -> string) (int_of_str : string -> option Z)
    (self : Library) (hist : list Z) (title author : string) (year : Z) :
  process lower int_of_str self hist ->
  forallb valid_record (books self) = true ->
  title <> "" -> author <> "" -> year <> 0 ->
  dumpable_catalog (added (new_book self (VStr title) (VStr author) year) self) = true ->
  exists book self',
    Limit.add_book int_of_str (ATitle (VStr title)) (VStr author) (VInt year) self
    = (Ok book, self')
    /\ exists results,
         search_book lower (VStr title) VNone VNone self' = (Ok results, self')
         /\ In book results
         /\ Book.title book = VStr title
         /\ Book.id book = VInt (next_id self)
         /\ forall i, In i hist -> i < next_id self.
Proof.
  intros Hp Hv Ht Ha Hy Hd.
  destruct (process_counter_inv _ _ _ _ Hp) as (_ & _ & Hlt & _).
  set (book := new_book self (VStr title) (VStr author) year) in *.
  exists book, (added book self). split.
  - rewrite limit_add_book; [|rewrite limit_add_book_eq];
      rewrite (add_book_ok int_of_str (VStr title) (VStr author) (VInt year) year self);
      try (now apply non_empty_truthy); try reflexivity;
      try (simpl; apply negb_true_iff; now apply Z.eqb_neq).
    fold book. rewrite then_save_dumpable.
    unfold dumpable_catalog, added in *. now rewrite saved_books in Hd.
  - exists (filter (matches lower (VStr title) VNone VNone) (books (added book self))).
    assert (books (added book self) = books self ++ [book])%list as Hb
      by (unfold added; now rewrite saved_books).
    split; [|split; [|repeat split; auto]].
    + apply search_book_filter; try reflexivity.
      rewrite Hb, forallb_app, (forallb_valid_text _ Hv). reflexivity.
    + apply filter_In. split.
      * rewrite Hb. apply in_app_iff. right. now left.
      * unfold matches, title_test, author_test, year_test, contains_ci. simpl.
        now rewrite is_substring_refl.
Qed.

(** C1, where the code departs from it.  The year 0 is an integer, and
    [add_book("1984", "Orwell", 0)] on the empty catalog is refused with
    [InvalidInputError]: nothing is stored, and the search for the title
    finds nothing.  The same function stores the same year when it is given
    as the text "0", and the search then finds the book. *)
Theorem add_year_zero_then_search :
  add_book decimal (ATitle (VStr "1984")) (VStr "Orwell") (VInt 0) empty_library
  = (Raise InvalidInputError, empty_library)
  /\ search_book lower_ascii (VStr "1984") VNone VNone empty_library
     = (Ok [], empty_library)
  /\ exists book self',
       add_book decimal (ATitle (VStr "1984")) (VStr "Orwell") (VStr "0") empty_library
       = (Ok book, self')
       /\ Book.year book = VInt 0
       /\ search_book lower_ascii (VStr "1984") VNone VNone self' = (Ok [book], self').
Proof.
  split; [reflexivity|]. split; [reflexivity|].
  do 2 eexists. split; [lazy; reflexivity|]. split; reflexivity.
Qed.

(** C2, as the code has it.  On a catalog of valid records, a search with
    a supplied filter of the wrong type (a title or an author that is not a
    string, a year that is not an integer) raises the built-in [TypeError],
    which is not one of the module's [BookError] classes, and leaves the
    catalog as it was. *)
Theorem search_wrong_type (lower : string -> string) (self : Library)
    (title author year : pyval) :
  forallb valid_record (books self) = true ->
  str_filter title && str_filter author && int_filter year = false ->
  search_book lower title author year self = (Raise TypeError, self)
  /\ is_BookError TypeError = false.
Proof.
  intros Hv Hw. split; [|reflexivity].
  apply search_book_wrong_type; [now apply forallb_valid_text | exact Hw].
Qed.

(** A year filter that is a string, on the catalog of the scenario. *)
Lemma search_wrong_type_witness :
  search_book lower_ascii VNone VNone (VStr "1949") (run scenario empty_library)
  = (Raise TypeError, run scenario empty_library)
  /\ is_BookError TypeError = false.
Proof.
  apply (search_wrong_type lower_ascii (run scenario empty_library) VNone VNone (VStr "1949")).
  - reflexivity.
  - reflexivity.
Defined.

(** C2 as stated fails: a year filter that is a string does not raise
    [InvalidInputError]. *)
Lemma search_wrong_type_not_InvalidInput :
  fst (search_book lower_ascii VNone VNone (VStr "1949") empty_library)
  <> Raise InvalidInputError.
Proof. discriminate. Qed.

(** What the test of a text filter comes to: the field is a text, and the
    filter in lower case occurs in it, in lower case. *)
Lemma contains_ci_occurs (lower : string -> string) (needle : string) (field : pyval) :
  contains_ci lower needle field = true
  <-> exists s, field = VStr s /\ occurs (lower needle) (lower s).
Proof.
  unfold contains_ci, occurs. destruct field as [| | |s| |];
    try (split; [discriminate | intros (s' & [=] & _)]).
  rewrite is_substring_app. split.
  - intros H. now exists s.
  - now intros (s' & [= <-] & H).
Qed.

(** C8, as the code has it.  On a catalog of valid records, [search_book]
    returns, in the order of the catalog, exactly the records that pass
    every supplied filter: the title filter, put in lower case by
    [str.lower], occurs in the title put in lower case; the author filter
    likewise in the author; and the year filter is the year.  Nothing is
    written: the state, data file included, is the one before the call.
    With no filter the result is the whole catalog. *)
Theorem search_conjunction (lower : string -> string) (self : Library)
    (title author : option string) (year : option Z) :
  forallb valid_record (books self) = true ->
  (exists results,
     search_book lower (opt_str title) (opt_str author) (opt_int year) self
     = (Ok results, self)
     /\ results = filter (matches lower (opt_str title) (opt_str author) (opt_int year))
                         (books self)
     /\ forall b, In b results <->
          In b (books self)
          /\ (forall t, title = Some t ->
                exists s, Book.title b = VStr s /\ occurs (lower t) (lower s))
          /\ (forall a, author = Some a ->
                exists s, Book.author b = VStr s /\ occurs (lower a) (lower s))
          /\ (forall y, year = Some y -> Book.year b = VInt y))
  /\ search_book lower VNone VNone VNone self = (Ok (books self), self).
Proof.
  intros Hv. split.
  - eexists. split; [|split; [reflexivity|]].
    + apply search_book_filter;
        [now apply forallb_valid_text | now destruct title | now destruct author
        | now destruct year].
    + intros b. rewrite filter_In. unfold matches. rewrite !andb_true_iff.
      split.
      * intros (Hb & (Ht & Ha) & Hy). split; [exact Hb|].
        rewrite forallb_forall in Hv. specialize (Hv b Hb).
        repeat split.
        -- intros t ->. now apply contains_ci_occurs.
        -- intros a ->. now apply contains_ci_occurs.
        -- intros y ->. unfold year_test, py_eq_int in Hy. simpl in Hy.
           unfold valid_record in Hv.
           destruct (Book.id b), (Book.title b), (Book.author b), (Book.year b);
             try discriminate.
           simpl in Hy. apply Z.eqb_eq in Hy. now subst.
      * intros (Hb & Ht & Ha & Hy). split; [exact Hb|]. repeat split.
        -- destruct title as [t|]; [|reflexivity].
           apply contains_ci_occurs. now apply Ht.
        -- destruct author as [a|]; [|reflexivity].
           apply contains_ci_occurs. now apply Ha.
        -- destruct year as [y|]; [|reflexivity].
           unfold year_test, py_eq_int. simpl. rewrite (Hy y eq_refl). simpl.
           apply Z.eqb_refl.
  - rewrite search_book_eq. simpl. reflexivity.
Qed.

(** The search for the author huxley after the two adds of the scenario:
    in lower case, huxley occurs in Huxley. *)
Lemma search_conjunction_witness :
  (exists results,
     search_book lower_ascii VNone (VStr "huxley") VNone (run (firstn 2 scenario) empty_library)
     = (Ok results, run (firstn 2 scenario) empty_library)
     /\ results = filter (matches lower_ascii VNone (VStr "huxley") VNone)
                         (books (run (firstn 2 scenario) empty_library))
     /\ forall b, In b results <->
          In b (books (run (firstn 2 scenario) empty_library))
          /\ (forall t, None = Some t ->
                exists s, Book.title b = VStr s /\ occurs (lower_ascii t) (lower_ascii s))
          /\ (forall a, Some "huxley" = Some a ->
                exists s, Book.author b = VStr s /\ occurs (lower_ascii a) (lower_ascii s))
          /\ (forall y, None = Some y -> Book.year b = VInt y))
  /\ search_book lower_ascii VNone VNone VNone (run (firstn 2 scenario) empty_library)
     = (Ok (books (run (firstn 2 scenario) empty_library)),
        run (firstn 2 scenario) empty_library).
Proof.
  apply (search_conjunction lower_ascii (run (firstn 2 scenario) empty_library)
           None (Some "huxley") None).
  reflexivity.
Defined.

(** C8 as stated fails: the capital sigma occurs in the title of the one
    book of [odos], a valid record, as it is written and so whatever the
    case; but [str.lower] makes the sigma that ends the title a final
    sigma and the sigma of the filter an ordinary one, and the search
    returns nothing. *)
Lemma search_misses_final_sigma :
  forallb valid_record (books odos) = true
  /\ map Book.title (books odos) = [VStr "ΟΔΟΣ"]
  /\ occurs "Σ" "ΟΔΟΣ"
  /\ lower_greek "Σ" = "σ"
  /\ lower_greek "ΟΔΟΣ" = "οδος"
  /\ search_book lower_greek (VStr "Σ") VNone VNone odos = (Ok [], odos).
Proof.
  repeat split; try reflexivity.
  exists "ΟΔΟ", "". reflexivity.
Qed.

(** With no filter, [search_book] returns the catalog and writes nothing,
    whatever the records are. *)
Lemma search_no_filter (lower : string -> string) (self : Library) :
  search_book lower VNone VNone VNone self = (Ok (books self), self).
Proof. rewrite search_book_eq. reflexivity. Qed.



(** C10.  [add_book(title, author, 0)] with a non-empty title and author
    raises [InvalidInputError]: [not year] holds for the integer 0.  The
    state, counter included, is unchanged. *)
Theorem add_year_zero (int_of_str : string -> option Z) (self : Library)
    (title author : string) :
  title <> "" -> author <> "" ->
  add_book int_of_str (ATitle (VStr title)) (VStr author) (VInt 0) self
  = (Raise InvalidInputError, self).
Proof.
  intros Ht Ha. unfold add_book.
  rewrite (non_empty_truthy _ Ht), (non_empty_truthy _ Ha). reflexivity.
Qed.

(** The year 0 on the catalog of the scenario. *)
Lemma add_year_zero_witness :
  add_book decimal (ATitle (VStr "1984")) (VStr "Orwell") (VInt 0) (run scenario empty_library)
  = (Raise InvalidInputError, run scenario empty_library).
Proof.
  apply (add_year_zero decimal (run scenario empty_library) "1984" "Orwell"); discriminate.
Defined.

(** ** Deleting *)

Lemma distinct_app_r (l1 l2 : list Z) : distinct (l1 ++ l2) = true -> distinct l2 = true.
Proof.
  induction l1 as [|x l1 IH]; simpl; [auto|].
  intros H. apply andb_prop in H. now apply IH.
Qed.

Lemma existsb_eqb_false (x : Z) (l : list Z) : existsb (Z.eqb x) l = false -> ~ In x l.
Proof.
  intros H Hin. assert (existsb (Z.eqb x) l = true) as Ht; [|congruence].
  apply existsb_exists. exists x. split; [exact Hin | apply Z.eqb_refl].
Qed.







(** ** Changing a status *)







(** ** Saving and loading *)

Lemma book_of_to_dict (b : Book.t) :
  Book.valid_status (Book.status b) = true ->
  book_of_data (Book.to_dict b) = Ok b.
Proof.
  intros H. destruct b as [i t a y s]. unfold book_of_data, Book.to_dict. simpl in *.
  unfold Book.__init__. now rewrite H.
Qed.

Lemma valid_record_status (b : Book.t) :
  valid_record b = true -> Book.valid_status (Book.status b) = true.
Proof.
  unfold valid_record.
  destruct (Book.id b), (Book.title b), (Book.author b), (Book.year b); try discriminate.
  intros H. apply andb_prop in H. tauto.
Qed.

Lemma valid_record_int_id (b : Book.t) :
  valid_record b = true -> exists i, Book.id b = VInt i.
Proof.
  unfold valid_record. destruct (Book.id b); try discriminate. eauto.
Qed.

Lemma parse_books_to_dict (bs : list Book.t) :
  forallb valid_record bs = true ->
  parse_books (map Book.to_dict bs) = Ok bs.
Proof.
  induction bs as [|b bs IH]; simpl; [reflexivity|].
  intros H. apply andb_prop in H. destruct H as [Hb Hbs].
  now rewrite (book_of_to_dict b (valid_record_status b Hb)), (IH Hbs).
Qed.

Lemma max_int_defined (ids : list pyval) :
  ids <> [] ->
  (forall v, In v ids -> exists i, as_int v = Some i) ->
  exists m, max_int ids = Some m.
Proof.
  induction ids as [|v ids IH]; intros Hne H; [now elim Hne|].
  simpl. destruct (H v (or_introl eq_refl)) as (z & ->).
  destruct ids as [|w ids]; [eauto|].
  destruct IH as (m & ->); [discriminate | intros x Hx; apply H; now right |].
  simpl. eauto.
Qed.

(** What [Library()] finds in a file that holds valid records. *)
Lemma hydrated_to_dict (bs : list Book.t) :
  forallb valid_record bs = true ->
  exists n, hydrated (Json (VList (map Book.to_dict bs))) = Ok (bs, n).
Proof.
  intros H. simpl. rewrite (parse_books_to_dict bs H).
  destruct bs as [|b bs]; [eauto|].
  unfold max_id_plus_one.
  destruct (max_int_defined (map Book.id (b :: bs))) as (m & ->); [discriminate| |eauto].
  intros v Hv. apply in_map_iff in Hv. destruct Hv as (b' & <- & Hb').
  rewrite forallb_forall in H.
  destruct (valid_record_int_id b' (H b' Hb')) as (i & ->). simpl. eauto.
Qed.

(** The part of C7 the code keeps.  When the file can be written, saving
    a catalog of valid records that [json.dump] can write and loading the
    file gives back the same records: the same ids, titles, authors, years
    and statuses, in the same order.  That holds for [load_data] on the same
    object and for a new [Library()] that reads the file.  The file is held
    as the value [json.load] returns from it: what is shown is that
    [to_dict], the keys and the loop of [load_data] undo each other, given
    that the [json] module reads back what it wrote. *)
Lemma save_then_load (self : Library) (writable : bool) :
  io_ok self = true ->
  forallb valid_record (books self) = true ->
  dumpable_catalog self = true ->
  (exists self',
     load_data (snd (Limit.save_data self)) = (Ok tt, self') /\ books self' = books self)
  /\ (exists lib,
        Limit.__init__ (data_file (snd (Limit.save_data self))) writable = Ok lib
        /\ books lib = books self).
Proof.
  intros Hw Hv Hd. rewrite limit_save_data_eq, (then_save_ok tt self Hd). simpl snd.
  destruct (hydrated_to_dict (books self) Hv) as (n & Hn).
  pose proof (saved_data_file self Hw) as Hf.
  split.
  - eexists. split.
    + apply (load_data_json (saved self) (VList (map Book.to_dict (books self)))
               (map Book.to_dict (books self)) (books self) n);
        [exact Hf | reflexivity | now apply parse_books_to_dict | exact Hn].
    + reflexivity.
  - exists (saved (mkLibrary (books self) n (data_file (saved self)) writable)).
    split; [|now rewrite saved_books].
    apply limit_init_ok; [now rewrite init_eq, Hf, Hn|].
    unfold dumpable_catalog in *. now rewrite saved_books.
Qed.

(** The catalog that holds one valid record, whose year is 10 ^ 4300, an
    integer of 4301 digits: [add_book("1984", "Orwell", 10 ** 4300)] leaves
    it in memory. *)
Definition long_year : Library :=
  mkLibrary [Book.mk (VInt 1) (VStr "1984") (VStr "Orwell") (VInt beyond_digits)
                     (VStr Book.IN_STOCK)]
            2 (Json (VList [])) true.

(** C7, where the code departs from it.  The record of [long_year] is
    valid.  [save_data] raises [ValueError] on it, from [json.dump], and
    leaves a file that is not JSON; [Library()] on that file returns an
    empty catalog: the record is lost.  [add_book] with that year raises
    the same [ValueError] after it has appended the book. *)
Theorem save_beyond_the_limit :
  forallb valid_record (books long_year) = true
  /\ Limit.save_data long_year = (Raise ValueError, set_data_file NotJson long_year)
  /\ (exists lib,
        Limit.__init__ (data_file (snd (Limit.save_data long_year))) true = Ok lib
        /\ books lib = [])
  /\ Limit.add_book decimal (ATitle (VStr "1984")) (VStr "Orwell") (VInt beyond_digits)
       empty_library
     = (Raise ValueError, set_data_file NotJson long_year).
Proof.
  split; [reflexivity|]. split; [vm_compute; reflexivity|].
  split; [|vm_compute; reflexivity].
  eexists. split; [vm_compute; reflexivity | reflexivity].
Qed.

(** The limit is at 4300 digits: the year 10 ^ 4300 - 1 can be written. *)
Example valid_record_at_the_limit :
  beyond_digits = 10 ^ 4300
  /\ dumpable (Book.to_dict (Book.mk (VInt 1) (VStr "1984") (VStr "Orwell")
                                      (VInt (beyond_digits - 1)) (VStr Book.IN_STOCK))) = true
  /\ dumpable (Book.to_dict (Book.mk (VInt 1) (VStr "1984") (VStr "Orwell")
                                      (VInt beyond_digits) (VStr Book.IN_STOCK))) = false.
Proof.
  split; [vm_compute; reflexivity|]. split; vm_compute; reflexivity.
Qed.

(** ** Malformed data files *)

(** The part of C3 the code keeps: a file that is missing, that cannot be
    read, or that [json.load] refuses gives an empty catalog, and
    [Library()] returns. *)
Lemma load_degrades (self : Library) :
  data_file self = Absent \/ data_file self = Unreadable \/ data_file self = NotJson ->
  load_data self = (Ok tt, set_books [] self)
  /\ exists lib, __init__ (data_file self) (io_ok self) = Ok lib
                 /\ books lib = [] /\ next_id lib = 1.
Proof.
  intros H. split.
  - unfold load_data. now destruct H as [->|[->|]]; [| |rewrite H].
  - rewrite init_eq.
    assert (hydrated (data_file self) = Ok ([], 1)) as ->
      by (now destruct H as [->|[->|]]; [| |rewrite H]).
    eexists. split; [reflexivity|]. now rewrite saved_books, saved_next_id.
Qed.

(** C3, where the code departs from it.  A data file that holds JSON of
    another shape than a list of records, or a record with a status outside
    the two, or bytes that are not UTF-8, is not caught by [load_data]: the
    exception leaves [load_data] and [Library()]. *)
Theorem init_raises_on_malformed_file :
  __init__ (Json not_a_list) true = Raise TypeError
  /\ __init__ (Json missing_fields) true = Raise KeyError
  /\ __init__ (Json lost_book) true = Raise InvalidStatusError
  /\ __init__ NotUtf8 true = Raise UnicodeDecodeError
  /\ fst (load_data (mkLibrary [] 1 (Json not_a_list) true)) = Raise TypeError.
Proof. repeat split; reflexivity. Qed.

(** ** The data model is an invariant *)

Lemma distinct_snoc (l : list Z) (x : Z) :
  distinct l = true -> ~ In x l -> distinct (l ++ [x]) = true.
Proof.
  induction l as [|y l IH]; simpl; [reflexivity|].
  intros H Hx. apply andb_prop in H. destruct H as [Hy Hl].
  rewrite IH by tauto. rewrite andb_true_r. apply negb_true_iff.
  rewrite existsb_app. simpl. rewrite orb_false_r.
  apply negb_true_iff in Hy. rewrite Hy. simpl.
  apply Z.eqb_neq. intros ->. tauto.
Qed.

Lemma distinct_filter (f : Book.t -> bool) (bs : list Book.t) :
  distinct (int_ids bs) = true -> distinct (int_ids (filter f bs)) = true.
Proof.
  induction bs as [|b bs IH]; [reflexivity|].
  change (b :: bs) with ([b] ++ bs)%list. rewrite int_ids_app. intros H.
  pose proof (distinct_app_r _ _ H) as Hbs. simpl filter.
  destruct (f b); [|now apply IH].
  change (b :: filter f bs) with ([b] ++ filter f bs)%list. rewrite int_ids_app.
  unfold int_ids at 1. unfold int_ids at 1 in H. simpl in *.
  destruct (as_int (Book.id b)) as [i|]; simpl in *; [|now apply IH].
  apply andb_prop in H. destruct H as [Hi _]. rewrite (IH Hbs), andb_true_r.
  apply negb_true_iff. apply negb_true_iff in Hi.
  destruct (existsb (Z.eqb i) (int_ids (filter f bs))) eqn:E; [|reflexivity].
  apply existsb_exists in E. destruct E as (j & Hj & Hij). apply Z.eqb_eq in Hij. subst j.
  apply int_ids_filter in Hj. exfalso. revert Hj. now apply existsb_eqb_false.
Qed.

Lemma set_first_status_valid (id : Z) (status : pyval) (bs bs' : list Book.t) :
  Book.valid_status status = true ->
  forallb valid_record bs = true ->
  set_first_status id status bs = Some bs' ->
  forallb valid_record bs' = true.
Proof.
  intros Hs. revert bs'. induction bs as [|b bs IH]; intros bs'; simpl; [discriminate|].
  intros H. apply andb_prop in H. destruct H as [Hb Hbs].
  destruct (py_eq_int (Book.id b) id).
  - intros [= <-]. simpl. rewrite Hbs, andb_true_r.
    unfold valid_record in *. simpl.
    destruct (Book.id b), (Book.title b), (Book.author b), (Book.year b); try discriminate.
    apply andb_prop in Hb. destruct Hb as [-> _]. exact Hs.
  - destruct (set_first_status id status bs) as [l|]; simpl; [|discriminate].
    intros [= <-]. simpl. now rewrite Hb, (IH l Hbs eq_refl).
Qed.

Lemma valid_catalog_iff (self : Library) :
  valid_catalog self = true <->
  forallb valid_record (books self) = true
  /\ distinct (int_ids (books self)) = true
  /\ forall i, In i (int_ids (books self)) -> i < next_id self.
Proof.
  unfold valid_catalog. rewrite !andb_true_iff.
  rewrite (forallb_forall (fun i => i <? next_id self)).
  split.
  - intros ((H1 & H2) & H3). repeat split; auto.
    intros i Hi. now apply Z.ltb_lt, H3.
  - intros (H1 & H2 & H3). repeat split; auto.
    intros i Hi. now apply Z.ltb_lt, H3.
Qed.

(** The catalog [Library()] builds without a data file is valid, every
    call keeps a valid catalog valid, and so does saving it and starting a
    new process on the file: the hypotheses of the claims hold all along
    the life of the catalog. *)
Lemma valid_catalog_start : valid_catalog empty_library = true.
Proof. reflexivity. Qed.

Lemma valid_catalog_call (lower : string -> string) (int_of_str : string -> option Z)
    (c : call) (self : Library) :
  text_call c = true ->
  valid_catalog self = true ->
  valid_catalog (fst (perform lower int_of_str c self)) = true.
Proof.
  intros Hc Hv. apply valid_catalog_iff in Hv. destruct Hv as (Hr & Hd & Hlt).
  apply valid_catalog_iff.
  destruct c as [title author year|id|id status|title author year]; unfold perform.
  - destruct (add_book int_of_str (ATitle title) author year self) as [r self'] eqn:E.
    destruct r as [book|e].
    + destruct (add_book_truthy _ _ _ _ _ _ _ E) as [Ht Ha].
      apply add_book_inv in E. destruct E as [(y & _ & [= ->] & ->)|(e & [=] & _)].
      cbn [fst snd]. unfold added. rewrite saved_books, saved_next_id. simpl.
      rewrite forallb_app, int_ids_app, Hr. simpl.
      destruct title as [| | |t| |], author as [| | |a| |]; try discriminate.
      simpl in Ht, Ha. unfold valid_record. simpl. rewrite Ht, Ha.
      repeat split.
      * apply distinct_snoc; [exact Hd|]. intros Hi. apply Hlt in Hi. lia.
      * intros i Hi. apply in_app_iff in Hi. destruct Hi as [Hi|[<-|[]]]; [apply Hlt in Hi|]; lia.
    + apply add_book_inv in E. destruct E as [(y & _ & [=] & _)|(e' & _ & ->)]. auto.
  - rewrite delete_book_eq. cbv zeta.
    destruct (Nat.eqb _ _); cbn [fst snd]; rewrite ?saved_books, ?saved_next_id; simpl;
      (repeat split;
       [now apply forallb_sub | now apply distinct_filter
       | intros i Hi; apply Hlt; eapply int_ids_filter; exact Hi]).
  - rewrite change_status_eq.
    destruct (Book.valid_status status) eqn:Hs; cbn [fst snd]; [|auto].
    destruct (set_first_status id status (books self)) as [bs'|] eqn:E; cbn [fst snd]; [|auto].
    rewrite saved_books, saved_next_id. simpl.
    rewrite (int_ids_map _ _ (set_first_status_ids _ _ _ _ E)).
    repeat split; auto. now apply (set_first_status_valid id status (books self)).
  - cbn [fst snd]. rewrite search_book_state. auto.
Qed.

Lemma valid_catalog_restart (self : Library) (writable : bool) :
  valid_catalog self = true ->
  io_ok self = true ->
  exists lib, __init__ (data_file (snd (save_data self))) writable = Ok lib
              /\ books lib = books self
              /\ valid_catalog lib = true.
Proof.
  intros Hv Hw. apply valid_catalog_iff in Hv. destruct Hv as (Hr & Hd & _).
  rewrite save_data_eq. simpl snd. rewrite (saved_data_file self Hw), init_eq.
  destruct (hydrated_to_dict (books self) Hr) as (n & Hn). rewrite Hn.
  eexists. split; [reflexivity|]. rewrite saved_books. simpl. split; [reflexivity|].
  apply valid_catalog_iff. rewrite saved_books, saved_next_id. simpl.
  repeat split; auto.
  intros i Hi. apply in_int_ids in Hi. destruct Hi as (b & Hb & Hi).
  destruct (proj1 (hydrated_counter _ _ _ Hn) b Hb) as (j & Hj & Hlt). congruence.
Qed.

(** * Further properties of the code *)

Section Calls.

Variable lower : string -> string.
Variable int_of_str : string -> option Z.

(** A sequence of calls, each performed whether it returns or raises: the
    state at the end and the ids assigned on the way. *)
Fixpoint perform_all (cs : list call) (self : Library) : Library * list Z :=
  match cs with
  | [] => (self, [])
  | c :: cs' =>
      let (self1, ids1) := perform lower int_of_str c self in
      let (self2, ids2) := perform_all cs' self1 in
      (self2, (ids1 ++ ids2)%list)
  end.

End Calls.

(** ** The data file and the catalog in memory *)










(** Beyond the limit the result does depend on the file: the add of a year
    too long raises where the file opens, and returns where it does
    not. *)
Example add_beyond_the_limit_sees_the_file :
  fst (Limit.add_book decimal (ATitle (VStr "1984")) (VStr "Orwell") (VInt beyond_digits)
         empty_library)
  = Raise ValueError
  /\ exists book,
       fst (Limit.add_book decimal (ATitle (VStr "1984")) (VStr "Orwell") (VInt beyond_digits)
              (mkLibrary [] 1 NotJson false))
       = Ok book.
Proof.
  split; [vm_compute; reflexivity|]. eexists. vm_compute. reflexivity.
Qed.

(** ** Deleting, in general *)





(** A data file in which two records have the id 1. *)
Definition twins : pyval :=
  VList [VDict [("id", VInt 1); ("title", VStr "1984"); ("author", VStr "Orwell");
                ("year", VInt 1949); ("status", VStr Book.IN_STOCK)];
         VDict [("id", VInt 1); ("title", VStr "Animal Farm"); ("author", VStr "Orwell");
                ("year", VInt 1945); ("status", VStr Book.IN_STOCK)];
         VDict [("id", VInt 2); ("title", VStr "Brave New World"); ("author", VStr "Huxley");
                ("year", VInt 1932); ("status", VStr Book.IN_STOCK)]].

Definition twins_library : Library :=
  match __init__ (Json twins) true with
  | Ok self => self
  | Raise _ => empty_library
  end.



(** ** Adding and deleting, changing a status and changing it back *)







(** ** The ids a process hands out *)






(** The gap an add leaves when it fails in [save_data]: the id 1 is taken
    by the book of the year too long, which is in the catalog although the
    add raised; once that book is deleted, the next add gets the id 2. *)
Example gap_beyond_the_limit :
  snd (Limit.perform_all lower_ascii decimal
         [Add (VStr "1984") (VStr "Orwell") (VInt beyond_digits);
          Delete 1;
          Add (VStr "Animal Farm") (VStr "Orwell") (VInt 1945)] empty_library)
  = [2].
Proof. vm_compute. reflexivity. Qed.





(** ** Searching any catalog *)

Lemma comprehension_ok {A : Type} (test : A -> result bool) (f : A -> bool)
    (l r : list A) :
  (forall x b, test x = Ok b -> b = f x) ->
  comprehension test l = Ok r ->
  r = filter f l.
Proof.
  intros H. revert r. induction l as [|x l IH]; intros r; simpl; [now intros [= <-]|].
  destruct (test x) as [keep|e] eqn:Hx; [|discriminate].
  destruct (comprehension test l) as [r'|e]; [|discriminate].
  intros [= <-]. rewrite <- (H x keep Hx), (IH r' eq_refl). reflexivity.
Qed.

(** X9.  On any catalog and with any arguments, [search_book] leaves the
    state as it was, whether it returns or raises; and when it returns, it
    returns the books that pass the test of every supplied filter, in the
    order of the catalog, and nothing else. *)
Theorem search_returns_the_matches (lower : string -> string) (self : Library)
    (title author year : pyval) :
  snd (search_book lower title author year self) = self
  /\ forall results,
       fst (search_book lower title author year self) = Ok results ->
       results = filter (matches lower title author year) (books self).
Proof.
  split; [apply search_book_state|].
  intros results. rewrite search_book_eq.
  destruct (by_title lower title (books self)) as [r1|e] eqn:H1; [|discriminate].
  destruct (by_author lower author r1) as [r2|e] eqn:H2; [|discriminate].
  destruct (by_year year r2) as [r3|e] eqn:H3; [|discriminate].
  intros [= <-].
  assert (r1 = filter (title_test lower title) (books self)) as ->.
  { destruct title; simpl in H1; try discriminate.
    - injection H1 as <-. clear. induction (books self); simpl; congruence.
    - eapply comprehension_ok; [|exact H1].
      intros x b. unfold lower_in, title_test, contains_ci.
      destruct (Book.title x); try discriminate. now intros [= <-]. }
  assert (r2 = filter (author_test lower author) (filter (title_test lower title) (books self)))
    as ->.
  { destruct author; simpl in H2; try discriminate.
    - injection H2 as <-. clear. induction (filter _ (books self)); simpl; congruence.
    - eapply comprehension_ok; [|exact H2].
      intros x b. unfold lower_in, author_test, contains_ci.
      destruct (Book.author x); try discriminate. now intros [= <-]. }
  rewrite by_year_eq in H3. destruct (int_filter year); [|discriminate].
  injection H3 as <-.
  rewrite (filter_filter (title_test lower title) (author_test lower author)).
  now rewrite filter_filter.
Qed.

(** The search for the author orwell in the file with the twins. *)
Lemma search_returns_the_matches_witness :
  snd (search_book lower_ascii VNone (VStr "orwell") VNone twins_library) = twins_library
  /\ forall results,
       fst (search_book lower_ascii VNone (VStr "orwell") VNone twins_library) = Ok results ->
       results = filter (matches lower_ascii VNone (VStr "orwell") VNone) (books twins_library).
Proof.
  exact (search_returns_the_matches lower_ascii twins_library VNone (VStr "orwell") VNone).
Defined.

Lemma comprehension_raise (lower : string -> string) (t : string) (bs : list Book.t) :
  (exists b, In b bs /\ isinstance_str (Book.title b) = false) ->
  comprehension (fun book => lower_in lower t (Book.title book)) bs = Raise AttributeError.
Proof.
  induction bs as [|b bs IH]; intros (x & Hx & Hn); [destruct Hx|]. simpl.
  destruct (Book.title b) eqn:Hb; simpl; try reflexivity.
  destruct Hx as [->|Hx]; [rewrite Hb in Hn; discriminate|].
  rewrite IH by eauto. reflexivity.
Qed.

(** X10.  The titles are not checked when a book is added or loaded, and
    the search pays for it: as soon as one book of the catalog has a title
    that is not a string, every search with a title filter raises
    [AttributeError], whatever the other filters are, and the catalog is
    left as it was. *)
Theorem search_title_on_non_text (lower : string -> string) (self : Library)
    (t : string) (author year : pyval) :
  (exists b, In b (books self) /\ isinstance_str (Book.title b) = false) ->
  search_book lower (VStr t) author year self = (Raise AttributeError, self).
Proof.
  intros H. rewrite search_book_eq. simpl by_title.
  now rewrite (comprehension_raise lower t (books self) H).
Qed.

(** [add_book(1984, "Orwell", 1949)] is accepted, and the search that
    follows fails. *)
Lemma search_title_on_non_text_witness :
  exists book self',
    add_book decimal (ATitle (VInt 1984)) (VStr "Orwell") (VInt 1949) empty_library
    = (Ok book, self')
    /\ search_book lower_ascii (VStr "1984") VNone VNone self' = (Raise AttributeError, self').
Proof.
  do 2 eexists. split; [lazy; reflexivity|].
  apply (search_title_on_non_text lower_ascii).
  eexists. split; [simpl; left; reflexivity | reflexivity].
Defined.

(** ** What [Library()] accepts *)

(** [item] is a JSON object that holds the five fields of [b], with one of
    the two statuses; it may hold other keys. *)
Definition record_of (item : pyval) (b : Book.t) : Prop :=
  exists d,
    item = VDict d
    /\ lookup "title" d = Some (Book.title b)
    /\ lookup "author" d = Some (Book.author b)
    /\ lookup "year" d = Some (Book.year b)
    /\ lookup "status" d = Some (Book.status b)
    /\ lookup "id" d = Some (Book.id b)
    /\ Book.valid_status (Book.status b) = true.

Lemma book_of_data_record (item : pyval) (b : Book.t) :
  book_of_data item = Ok b <-> record_of item b.
Proof.
  unfold book_of_data, record_of, subscript, and_then. split.
  - destruct item as [| | | | |d]; try discriminate.
    destruct (lookup "title" d) as [t|] eqn:Ht; [|discriminate].
    destruct (lookup "author" d) as [a|] eqn:Ha; [|discriminate].
    destruct (lookup "year" d) as [y|] eqn:Hy; [|discriminate].
    destruct (lookup "status" d) as [s|] eqn:Hst; [|discriminate].
    destruct (lookup "id" d) as [i|] eqn:Hi; [|discriminate].
    unfold Book.__init__. destruct (Book.valid_status s) eqn:Hs; [|discriminate].
    intros [= <-]. exists d. simpl. repeat split; reflexivity || assumption.
  - intros (d & -> & -> & -> & -> & -> & -> & Hs).
    unfold Book.__init__. rewrite Hs. now destruct b.
Qed.

Lemma parse_books_records (items : list pyval) (bs : list Book.t) :
  parse_books items = Ok bs <-> Forall2 record_of items bs.
Proof.
  revert bs. induction items as [|x items IH]; intros bs; simpl.
  - split; [intros [= <-]; constructor | intros H; now inversion H].
  - split.
    + destruct (book_of_data x) as [b|e] eqn:Hb; [|discriminate].
      destruct (parse_books items) as [bs'|e]; [|discriminate].
      intros [= <-]. constructor; [now apply book_of_data_record | now apply IH].
    + intros H. inversion H as [|x' b items' bs' Hb Hbs]; subst.
      apply book_of_data_record in Hb. apply IH in Hbs. now rewrite Hb, Hbs.
Qed.






(** X12.  The status of every book is one of the two, at every moment of a
    process, in which books are added by [add_book] called with a title, an
    author and a year: [Library()] refuses a file with another status, the
    book such an add builds is 'в наличии', and [change_status] refuses
    another value.  ([add_book] called with a [Book] object stores the
    status the object has; that form is not among the calls of a
    process.) *)
Theorem statuses_stay_valid (lower : string -> string) (int_of_str : string -> option Z)
    (self : Library) (hist : list Z) :
  process lower int_of_str self hist ->
  forall b, In b (books self) -> Book.valid_status (Book.status b) = true.
Proof.
  induction 1 as [file writable self Hinit | c self hist Hp IH].
  - rewrite init_eq in Hinit.
    destruct (hydrated file) as [[bs n]|e] eqn:Hh; [|discriminate].
    injection Hinit as <-. rewrite saved_books. simpl.
    assert (bs = [] \/ exists items, parse_books items = Ok bs) as [->|(items & Hp)].
    { destruct file as [| | | | | |data]; simpl in Hh; try (injection Hh as <- _; now left);
        try discriminate.
      destruct (py_iter data) as [items|e]; [|discriminate].
      destruct (parse_books items) as [[|b0 bs0]|e] eqn:Hp; [| |discriminate].
      - injection Hh as <- _. now left.
      - destruct (max_id_plus_one (b0 :: bs0)); [|discriminate].
        injection Hh as <- _. right. eauto. }
    + intros b [].
    + apply parse_books_records in Hp. intros b Hb.
      clear Hh. induction Hp as [|x b' items bs Hx _ IHp]; [destruct Hb|].
      destruct Hb as [<-|Hb]; [|now apply IHp].
      destruct Hx as (d & _ & _ & _ & _ & _ & _ & Hs). exact Hs.
  - destruct c as [title author year|id|id status|title author year]; unfold perform.
    + destruct (add_book int_of_str (ATitle title) author year self) as [r self'] eqn:E.
      apply add_book_inv in E.
      destruct E as [(y & _ & -> & ->)|(e & -> & ->)]; cbn [fst snd]; [|exact IH].
      unfold added. rewrite saved_books. simpl. intros b Hb.
      apply in_app_iff in Hb. destruct Hb as [Hb|[<-|[]]]; [now apply IH | reflexivity].
    + rewrite delete_book_eq. cbv zeta.
      destruct (Nat.eqb _ _); cbn [fst snd]; rewrite ?saved_books; simpl;
        intros b Hb; apply filter_In in Hb; now apply IH.
    + rewrite change_status_eq.
      destruct (Book.valid_status status) eqn:Hs; cbn [fst snd]; [|exact IH].
      destruct (set_first_status id status (books self)) as [bs'|] eqn:E; cbn [fst snd];
        [|exact IH].
      rewrite saved_books. simpl. clear Hp. revert bs' E.
      induction (books self) as [|b0 bs IHb]; intros bs' E; simpl in E; [discriminate|].
      destruct (py_eq_int (Book.id b0) id).
      * injection E as <-. intros b [<-|Hb]; [exact Hs | apply IH; now right].
      * destruct (set_first_status id status bs) as [l|]; simpl in E; [|discriminate].
        injection E as <-. intros b [<-|Hb]; [apply IH; now left|].
        apply (IHb (fun x Hx => IH x (or_intror Hx)) l eq_refl b Hb).
    + cbn [fst snd]. now rewrite search_book_state.
Qed.

(** The statuses at the end of the scenario. *)
Lemma statuses_stay_valid_witness :
  Book.valid_status
    (Book.status (Book.mk (VInt 1) (VStr "1984") (VStr "Orwell") (VInt 1949) (VStr Book.ISSUED)))
  = true.
Proof.
  apply (statuses_stay_valid lower_ascii decimal (run scenario empty_library) [1; 2]);
    [|left; reflexivity].
  pose proof (process_empty lower_ascii decimal) as H0.
  pose proof (process_call _ _ (Add (VStr "1984") (VStr "Orwell") (VInt 1949)) _ _ H0) as H1.
  pose proof (process_call _ _ (Add (VStr "Brave New World") (VStr "Huxley") (VInt 1932)) _ _ H1) as H2.
  pose proof (process_call _ _ (ChangeStatus 1 (VStr Book.ISSUED)) _ _ H2) as H3.
  exact (process_call _ _ (Delete 2) _ _ H3).
Defined.

(** ** The arguments of [add_book] *)






(** The add of a year of 4301 digits to the catalog of the scenario. *)
Example add_book_beyond_the_limit :
  exists self',
    Limit.add_book decimal (ATitle (VStr "Animal Farm")) (VStr "Orwell") (VInt beyond_digits)
      (run scenario empty_library)
    = (Raise ValueError, self')
    /\ map Book.title (books self') = [VStr "1984"; VStr "Animal Farm"]
    /\ next_id self' = 4
    /\ data_file self' = NotJson.
Proof. eexists. split; [vm_compute; reflexivity|]. repeat split. Qed.



(** ** Distinct ids *)

(** X16.  On a catalog whose counter is above every id, no call makes two
    books share an id: when the ids are pairwise distinct before a call,
    they are after it, whatever the call (an add with a title, an author
    and a year, a delete, a change of status or a search) and its
    arguments.  The counter is above every id in every process that started
    on a file whose ids are integers ([process_counter_inv]). *)
Theorem ids_stay_distinct (lower : string -> string) (int_of_str : string -> option Z)
    (self : Library) (c : call) :
  (forall i, In i (int_ids (books self)) -> i < next_id self) ->
  distinct (int_ids (books self)) = true ->
  distinct (int_ids (books (fst (perform lower int_of_str c self)))) = true.
Proof.
  intros Hlt Hd.
  destruct c as [title author year|id|id status|title author year]; unfold perform.
  - destruct (add_book int_of_str (ATitle title) author year self) as [r self'] eqn:E.
    apply add_book_inv in E.
    destruct E as [(y & _ & -> & ->)|(e & -> & ->)]; cbn [fst snd]; [|exact Hd].
    unfold added. rewrite saved_books. simpl. rewrite int_ids_app.
    apply distinct_snoc; [exact Hd|]. intros Hi. apply Hlt in Hi. lia.
  - rewrite delete_book_eq. cbv zeta.
    destruct (Nat.eqb _ _); cbn [fst snd]; rewrite ?saved_books; simpl;
      now apply distinct_filter.
  - rewrite change_status_eq.
    destruct (Book.valid_status status); cbn [fst snd]; [|exact Hd].
    destruct (set_first_status id status (books self)) as [bs'|] eqn:E; cbn [fst snd];
      [|exact Hd].
    rewrite saved_books. simpl.
    now rewrite (int_ids_map _ _ (set_first_status_ids _ _ _ _ E)).
  - cbn [fst snd]. now rewrite search_book_state.
Qed.

(** A third add after the scenario, whose catalog holds the id 1 under the
    counter 3. *)
Lemma ids_stay_distinct_witness :
  distinct (int_ids (books (fst (perform lower_ascii decimal
                                   (Add (VStr "Animal Farm") (VStr "Orwell") (VStr "1945"))
                                   (run scenario empty_library))))) = true.
Proof.
  apply (ids_stay_distinct lower_ascii decimal (run scenario empty_library)).
  - intros i [<-|[]]. reflexivity.
  - reflexivity.
Defined.

(** * The menu: [Library.view_books] and class LibraryInterface

    The console is modelled by the lines that remain to be read on standard
    input and by what has been written on standard output.  A line written
    by [print] is kept as the pieces of its f-string: the text of a value or
    of an exception is Python's [str], which is not modelled.  [input]
    writes its prompt and takes the next line, or raises [EOFError] when
    there is none. *)

(** What can be raised while the menu runs: the exceptions of [exn], and
    [EOFError]. *)
Inductive raised : Type :=
| Lib (e : exn)
| EOFError.

Inductive piece : Type :=
| Lit (s : string)
| Val (v : pyval)
| Exc (r : raised).

Inductive output : Type :=
| Prompt (s : string)
| Line (l : list piece).

Record World : Type := mkWorld {
  library : Library;
  stdin : list string;
  stdout : list output
}.

Inductive iresult (A : Type) : Type :=
| Done (a : A)
| Fail (r : raised).
Arguments Done {A} a.
Arguments Fail {A} r.

(** A piece of the menu: it reads and writes the console, uses the
    library, and returns or raises. *)
Definition IO (A : Type) : Type := World -> iresult A * World.

Definition io_ret {A : Type} (a : A) : IO A := fun w => (Done a, w).

Definition io_raise {A : Type} (r : raised) : IO A := fun w => (Fail r, w).

Definition io_bind {A B : Type} (m : IO A) (k : A -> IO B) : IO B :=
  fun w =>
    match m w with
    | (Done a, w') => k a w'
    | (Fail r, w') => (Fail r, w')
    end.

Notation "x <<- m ;; k" := (io_bind m (fun x => k))
  (at level 61, m at next level, right associativity).
Notation "m >>> k" := (io_bind m (fun _ => k))
  (at level 61, right associativity).

Definition print (l : list piece) : IO unit :=
  fun w => (Done tt, mkWorld (library w) (stdin w) (stdout w ++ [Line l])).

(** [print(s)] for a string literal. *)
Definition say (s : string) : IO unit := print [Lit s].

Definition input (prompt : string) : IO string :=
  fun w =>
    match stdin w with
    | [] => (Fail EOFError, mkWorld (library w) [] (stdout w ++ [Prompt prompt]))
    | l :: rest => (Done l, mkWorld (library w) rest (stdout w ++ [Prompt prompt]))
    end.

(** A call to a method of [self.library]. *)
Definition on_library {A : Type} (m : M A) : IO A :=
  fun w =>
    match m (library w) with
    | (Ok a, lib) => (Done a, mkWorld lib (stdin w) (stdout w))
    | (Raise e, lib) => (Fail (Lib e), mkWorld lib (stdin w) (stdout w))
    end.

(** [try: body except ...]: [handler] gives the clause that catches the
    exception, if one does. *)
Definition try_except {A : Type} (body : IO A) (handler : raised -> option (IO A)) : IO A :=
  fun w =>
    match body w with
    | (Done a, w') => (Done a, w')
    | (Fail r, w') =>
        match handler r with
        | Some h => h w'
        | None => (Fail r, w')
        end
    end.

Fixpoint io_for_each {A : Type} (l : list A) (body : A -> IO unit) : IO unit :=
  match l with
  | [] => io_ret tt
  | x :: l' => body x >>> io_for_each l' body
  end.

(** The subclasses of [ValueError] among the exceptions of [exn]. *)
Definition is_ValueError (r : raised) : bool :=
  match r with
  | Lib ValueError | Lib UnicodeDecodeError => true
  | _ => false
  end.

(** The line printed for a book, by [view_books] and by the search. *)
Definition book_line (book : Book.t) : list piece :=
  [ Lit "ID: "; Val (Book.id book);
    Lit ", Название: "; Val (Book.title book);
    Lit ", Автор: "; Val (Book.author book);
    Lit ", Год: "; Val (Book.year book);
    Lit ", Статус: "; Val (Book.status book) ].

(** [Library.view_books]. *)
Definition view_books : IO unit :=
  bs <<- on_library (gets books) ;;
  (match bs with [] => say "Библиотека пуста" | _ => io_ret tt end) >>>
  io_for_each bs (fun book => print (book_line book)).

Module LibraryInterface.

Section Handlers.

Variable lower : string -> string.
Variable int_of_str : string -> option Z.

(** [int(s)] for a line that was read. *)
Definition to_int (s : string) : IO Z :=
  match int_of_str s with
  | Some z => io_ret z
  | None => io_raise (Lib ValueError)
  end.

Definition add_book : IO unit :=
  title <<- input "Введите название книги: " ;;
  author <<- input "Введите автора книги: " ;;
  year <<- input "Введите год издания книги: " ;;
  try_except
    (on_library (add_book int_of_str (ATitle (VStr title)) (VStr author) (VStr year)) >>>
     say "Книга успешно добавлена")
    (fun r =>
       match r with
       | Lib InvalidInputError => Some (print [Lit "Ошибка при добавлении книги: "; Exc r])
       | _ => None
       end).

Definition delete_book : IO unit :=
  try_except
    (line <<- input "Введите id книги: " ;;
     id <<- to_int line ;;
     on_library (delete_book id) >>>
     say "Книга успешно удалена")
    (fun r =>
       if is_ValueError r then Some (say "ID должен быть числом")
       else match r with
            | Lib BookNotFoundError => Some (print [Exc r])
            | _ => None
            end).

(** The end of the [try] block of [search_book]: the results are
    printed. *)
Definition show_results (results : list Book.t) : IO unit :=
  (match results with [] => say "Книги не найдены" | _ => io_ret tt end) >>>
  io_for_each results (fun book => print (book_line book)).

Definition search_book : IO unit :=
  say "1. Поиск по названию" >>>
  say "2. Поиск по автору" >>>
  say "3. Поиск по году издания" >>>
  choice <<- input "Выберите действие: " ;;
  try_except
    (if String.eqb choice "1" then
       title <<- input "Введите название книги: " ;;
       results <<- on_library (search_book lower (VStr title) VNone VNone) ;;
       show_results results
     else if String.eqb choice "2" then
       author <<- input "Введите автора книги: " ;;
       results <<- on_library (search_book lower VNone (VStr author) VNone) ;;
       show_results results
     else if String.eqb choice "3" then
       line <<- input "Введите год издания книги: " ;;
       year <<- to_int line ;;
       results <<- on_library (search_book lower VNone VNone (VInt year)) ;;
       show_results results
     else
       say "Неверный выбор")
    (fun r =>
       if is_ValueError r then Some (say "Год должен быть числом")
       else match r with
            | Lib TypeError => Some (print [Lit "Ошибка при поиске: "; Exc r])
            | _ => None
            end).

Definition change_status : IO unit :=
  try_except
    (line <<- input "Введите id книги: " ;;
     id <<- to_int line ;;
     answer <<- input "Введите статус книги (выдана/в наличии): " ;;
     on_library (change_status id (VStr (lower answer))) >>>
     say "Статус книги успешно изменен")
    (fun r =>
       if is_ValueError r then Some (say "ID должен быть числом")
       else match r with
            | Lib BookNotFoundError | Lib InvalidStatusError => Some (print [Exc r])
            | _ => None
            end).

(** One call of [run], up to the point where it returns or calls itself
    again: [true] stands for the call [self.run()] that ends it. *)
Definition turn : IO bool :=
  say (String (ascii_of_nat 10) "1. Добавить книгу") >>>
  say "2. Удалить книгу" >>>
  say "3. Поиск книги" >>>
  say "4. Изменение статуса книги" >>>
  say "5. Вывести список книг" >>>
  say "6. Выход" >>>
  choice <<- input "Выберите действие: " ;;
  if String.eqb choice "6" then
    say "Выход из программы." >>> io_ret false
  else
    try_except
      (if String.eqb choice "1" then add_book
       else if String.eqb choice "2" then delete_book
       else if String.eqb choice "3" then search_book
       else if String.eqb choice "4" then change_status
       else if String.eqb choice "5" then view_books
       else say "Неверный выбор. Пожалуйста, выберите число от 1 до 6.")
      (fun r =>
         match r with
         | Lib e =>
             if is_BookError e
             then Some (print [Lit "Ошибка: "; Exc r])
             else Some (print [Lit "Произошла неожиданная ошибка: "; Exc r])
         | EOFError => Some (print [Lit "Произошла неожиданная ошибка: "; Exc r])
         end) >>>
    io_ret true.

(** [run], unfolded [depth] times: the calls of [run] nest, and [None] is
    returned when the innermost one would call [run] again.  (The limit
    Python sets on the nesting is not modelled.) *)
Fixpoint run (depth : nat) : IO (option unit) :=
  match depth with
  | O => io_ret None
  | S depth' =>
      again <<- turn ;;
      if again then run depth' else io_ret (Some tt)
  end.

End Handlers.

(** [LibraryInterface()]. *)
Definition __init__ (file : resource) (writable : bool) (keys : list string) : result World :=
  match __init__ file writable with
  | Ok lib => Ok (mkWorld lib keys [])
  | Raise e => Raise e
  end.

End LibraryInterface.

(** The handlers of the three methods that save, over the methods beyond
    the digits limit (lines 214 to 234 and 265 to 275 again). *)
Module LimitInterface.

Section Handlers.

Variable lower : string -> string.
Variable int_of_str : string -> option Z.

Definition add_book : IO unit :=
  title <<- input "Введите название книги: " ;;
  author <<- input "Введите автора книги: " ;;
  year <<- input "Введите год издания книги: " ;;
  try_except
    (on_library (Limit.add_book int_of_str (ATitle (VStr title)) (VStr author) (VStr year)) >>>
     say "Книга успешно добавлена")
    (fun r =>
       match r with
       | Lib InvalidInputError => Some (print [Lit "Ошибка при добавлении книги: "; Exc r])
       | _ => None
       end).

Definition delete_book : IO unit :=
  try_except
    (line <<- input "Введите id книги: " ;;
     id <<- LibraryInterface.to_int int_of_str line ;;
     on_library (Limit.delete_book id) >>>
     say "Книга успешно удалена")
    (fun r =>
       if is_ValueError r then Some (say "ID должен быть числом")
       else match r with
            | Lib BookNotFoundError => Some (print [Exc r])
            | _ => None
            end).

Definition change_status : IO unit :=
  try_except
    (line <<- input "Введите id книги: " ;;
     id <<- LibraryInterface.to_int int_of_str line ;;
     answer <<- input "Введите статус книги (выдана/в наличии): " ;;
     on_library (Limit.change_status id (VStr (lower answer))) >>>
     say "Статус книги успешно изменен")
    (fun r =>
       if is_ValueError r then Some (say "ID должен быть числом")
       else match r with
            | Lib BookNotFoundError | Lib InvalidStatusError => Some (print [Exc r])
            | _ => None
            end).

End Handlers.

End LimitInterface.

(** ** What the menu does to the catalog *)

Section Menu.

Variable lower : string -> string.
Variable int_of_str : string -> option Z.

Lemma perform_all_app (cs1 cs2 : list call) (self : Library) :
  fst (perform_all lower int_of_str (cs1 ++ cs2) self)
  = fst (perform_all lower int_of_str cs2 (fst (perform_all lower int_of_str cs1 self))).
Proof.
  revert self. induction cs1 as [|c cs1 IH]; intros self; simpl; [reflexivity|].
  destruct (perform lower int_of_str c self) as [self1 ids1].
  specialize (IH self1).
  destruct (perform_all lower int_of_str (cs1 ++ cs2) self1) as [s2 i2].
  destruct (perform_all lower int_of_str cs1 self1) as [s3 i3]. simpl in *.
  rewrite IH. now destruct (perform_all lower int_of_str cs2 s3).
Qed.

(** [reach l l']: some calls with text for the title and the author of the
    books they add lead from [l] to [l']. *)
Definition reach (l l' : Library) : Prop :=
  exists cs, forallb text_call cs = true /\ l' = fst (perform_all lower int_of_str cs l).

Lemma reach_refl (l : Library) : reach l l.
Proof. now exists []. Qed.

Lemma reach_trans (l1 l2 l3 : Library) : reach l1 l2 -> reach l2 l3 -> reach l1 l3.
Proof.
  intros (cs1 & H1 & ->) (cs2 & H2 & ->). exists (cs1 ++ cs2)%list.
  rewrite forallb_app, H1, H2, perform_all_app. auto.
Qed.

Lemma reach_call (c : call) (l : Library) :
  text_call c = true -> reach l (fst (perform lower int_of_str c l)).
Proof.
  intros H. exists [c]. simpl. rewrite H. split; [reflexivity|].
  now destruct (perform lower int_of_str c l).
Qed.

(** A piece of the menu that reaches the catalog through such calls
    only. *)
Definition steady {A : Type} (m : IO A) : Prop :=
  forall w, reach (library w) (library (snd (m w))).

Lemma steady_ret {A : Type} (a : A) : steady (io_ret a).
Proof. intros w. apply reach_refl. Qed.

Lemma steady_raise {A : Type} (r : raised) : steady (@io_raise A r).
Proof. intros w. apply reach_refl. Qed.

Lemma steady_print (l : list piece) : steady (print l).
Proof. intros w. apply reach_refl. Qed.

Lemma steady_say (s : string) : steady (say s).
Proof. apply steady_print. Qed.

Lemma steady_input (prompt : string) : steady (input prompt).
Proof. intros w. unfold input. destruct (stdin w); apply reach_refl. Qed.

Lemma steady_bind {A B : Type} (m : IO A) (k : A -> IO B) :
  steady m -> (forall a, steady (k a)) -> steady (io_bind m k).
Proof.
  intros Hm Hk w. unfold io_bind. specialize (Hm w).
  destruct (m w) as [[a|r] w']; simpl in *; [|exact Hm].
  eapply reach_trans; [exact Hm | apply Hk].
Qed.

Lemma steady_try {A : Type} (body : IO A) (handler : raised -> option (IO A)) :
  steady body -> (forall r h, handler r = Some h -> steady h) ->
  steady (try_except body handler).
Proof.
  intros Hb Hh w. unfold try_except. specialize (Hb w).
  destruct (body w) as [[a|r] w']; simpl in *; [exact Hb|].
  destruct (handler r) as [h|] eqn:E; [|exact Hb].
  eapply reach_trans; [exact Hb | now apply (Hh r h)].
Qed.

Lemma steady_for_each {A : Type} (l : list A) (body : A -> IO unit) :
  (forall x, steady (body x)) -> steady (io_for_each l body).
Proof.
  intros H. induction l as [|x l IH]; simpl; [apply steady_ret|].
  apply steady_bind; [apply H | intros _; exact IH].
Qed.

Lemma steady_to_int (s : string) : steady (LibraryInterface.to_int int_of_str s).
Proof.
  unfold LibraryInterface.to_int. destruct (int_of_str s); [apply steady_ret | apply steady_raise].
Qed.

(** The state a method leaves is the state [perform] gives for the call. *)
Lemma steady_on_library {A : Type} (m : M A) (c : call) :
  text_call c = true ->
  (forall l, snd (m l) = fst (perform lower int_of_str c l)) ->
  steady (on_library m).
Proof.
  intros Hc H w. unfold on_library. specialize (H (library w)).
  destruct (m (library w)) as [[a|e] l']; simpl in *; subst l'; now apply reach_call.
Qed.

Lemma steady_add (title author year : string) :
  steady (on_library (add_book int_of_str (ATitle (VStr title)) (VStr author) (VStr year))).
Proof.
  apply (steady_on_library _ (Add (VStr title) (VStr author) (VStr year))); [reflexivity|].
  intros l. unfold perform.
  now destruct (add_book int_of_str (ATitle (VStr title)) (VStr author) (VStr year) l) as [[b|e] l'].
Qed.

Lemma steady_delete (id : Z) : steady (on_library (delete_book id)).
Proof. now apply (steady_on_library _ (Delete id)). Qed.

Lemma steady_change (id : Z) (status : pyval) : steady (on_library (change_status id status)).
Proof. now apply (steady_on_library _ (ChangeStatus id status)). Qed.

Lemma steady_search (title author year : pyval) :
  steady (on_library (search_book lower title author year)).
Proof. now apply (steady_on_library _ (Search title author year)). Qed.

Lemma steady_books : steady (on_library (gets books)).
Proof. intros w. apply reach_refl. Qed.

Ltac steady_step :=
  first
    [ apply steady_say | apply steady_print | apply steady_input | apply steady_ret
    | apply steady_raise | apply steady_to_int | apply steady_add | apply steady_delete
    | apply steady_change | apply steady_search | apply steady_books
    | apply steady_for_each; intros
    | apply steady_bind; [|intros]
    | apply steady_try; [|intros ? ? ?]
    | match goal with |- steady (if ?b then _ else _) => destruct b end
    | match goal with |- steady (match ?x with [] => _ | _ => _ end) => destruct x end ].

Ltac steady_handler :=
  match goal with
  | H : (if ?b then _ else _) = Some _ |- _ => destruct b; steady_handler
  | H : match ?r with Lib _ => _ | EOFError => _ end = Some _ |- _ => destruct r; steady_handler
  | H : match ?e with BookNotFoundError => _ | _ => _ end = Some _ |- _ =>
      destruct e; steady_handler
  | H : Some _ = Some _ |- _ => injection H as <-
  | H : None = Some _ |- _ => discriminate H
  end.

Lemma steady_view_books : steady view_books.
Proof. unfold view_books. repeat steady_step. Qed.

Lemma steady_handler_add : steady (LibraryInterface.add_book int_of_str).
Proof.
  unfold LibraryInterface.add_book. repeat steady_step. steady_handler. repeat steady_step.
Qed.

Lemma steady_handler_delete : steady (LibraryInterface.delete_book int_of_str).
Proof.
  unfold LibraryInterface.delete_book. repeat steady_step. steady_handler; repeat steady_step.
Qed.

Lemma steady_show_results (results : list Book.t) :
  steady (LibraryInterface.show_results results).
Proof. unfold LibraryInterface.show_results. repeat steady_step. Qed.

Lemma steady_handler_search : steady (LibraryInterface.search_book lower int_of_str).
Proof.
  unfold LibraryInterface.search_book.
  repeat (steady_step || apply steady_show_results).
  steady_handler; repeat steady_step.
Qed.

Lemma steady_handler_change : steady (LibraryInterface.change_status lower int_of_str).
Proof.
  unfold LibraryInterface.change_status. repeat steady_step. steady_handler; repeat steady_step.
Qed.

Lemma steady_turn : steady (LibraryInterface.turn lower int_of_str).
Proof.
  unfold LibraryInterface.turn.
  repeat (steady_step || apply steady_handler_add || apply steady_handler_delete
          || apply steady_handler_search || apply steady_handler_change
          || apply steady_view_books).
  all: steady_handler; repeat steady_step.
Qed.

Lemma steady_run (depth : nat) : steady (LibraryInterface.run lower int_of_str depth).
Proof.
  induction depth as [|depth IH]; simpl; [apply steady_ret|].
  apply steady_bind; [apply steady_turn|]. intros [|]; [exact IH | apply steady_ret].
Qed.

End Menu.

Lemma valid_catalog_all (lower : string -> string) (int_of_str : string -> option Z)
    (cs : list call) (self : Library) :
  forallb text_call cs = true ->
  valid_catalog self = true ->
  valid_catalog (fst (perform_all lower int_of_str cs self)) = true.
Proof.
  revert self. induction cs as [|c cs IH]; intros self; simpl; [auto|].
  intros H Hv. apply andb_prop in H. destruct H as [Hc Hcs].
  pose proof (valid_catalog_call lower int_of_str c self Hc Hv) as H1.
  destruct (perform lower int_of_str c self) as [self1 ids1]. simpl in H1.
  specialize (IH self1 Hcs H1).
  now destruct (perform_all lower int_of_str cs self1).
Qed.

Lemma process_all (lower : string -> string) (int_of_str : string -> option Z)
    (cs : list call) (self : Library) (hist : list Z) :
  process lower int_of_str self hist ->
  process lower int_of_str (fst (perform_all lower int_of_str cs self))
          (hist ++ snd (perform_all lower int_of_str cs self)).
Proof.
  revert self hist. induction cs as [|c cs IH]; intros self hist Hp; simpl.
  - now rewrite app_nil_r.
  - pose proof (process_call lower int_of_str c self hist Hp) as H1.
    destruct (perform lower int_of_str c self) as [self1 ids1]. simpl in H1.
    specialize (IH self1 _ H1).
    destruct (perform_all lower int_of_str cs self1) as [self2 ids2]. simpl in *.
    now rewrite app_assoc.
Qed.

(** A session at the keyboard: a book is added, searched for, lent, the
    list is printed, and the user leaves. *)
Definition session : list string :=
  ["1"; "1984"; "Orwell"; "1949"; "3"; "2"; "orw"; "4"; "1"; "выдана"; "5"; "6"].

(** X17.  Whatever is typed, and as long as [run] goes on, the menu
    changes the catalog only by calls of add_book, delete_book,
    change_status and search_book, and the books it adds have their title
    and their author as text: the catalog after any number of turns is the
    one such a sequence of calls leaves. *)
Theorem menu_makes_calls (lower : string -> string) (int_of_str : string -> option Z)
    (depth : nat) (w : World) :
  exists cs,
    forallb text_call cs = true
    /\ library (snd (LibraryInterface.run lower int_of_str depth w))
       = fst (perform_all lower int_of_str cs (library w)).
Proof. exact (steady_run lower int_of_str depth w). Qed.

(** X18.  Whatever is typed, the menu keeps a valid catalog valid: after
    any number of turns the records still have an integer id, a non-empty
    text as title and as author, an integer year and one of the two
    statuses, the ids are pairwise distinct and the counter is above
    them. *)
Theorem menu_keeps_catalog_valid (lower : string -> string) (int_of_str : string -> option Z)
    (depth : nat) (w : World) :
  valid_catalog (library w) = true ->
  valid_catalog (library (snd (LibraryInterface.run lower int_of_str depth w))) = true.
Proof.
  intros Hv. destruct (steady_run lower int_of_str depth w) as (cs & Hcs & ->).
  now apply valid_catalog_all.
Qed.

(** The session, from an empty catalog. *)
Lemma menu_keeps_catalog_valid_witness :
  valid_catalog
    (library (snd (LibraryInterface.run lower_ascii decimal 10
                     (mkWorld empty_library session [])))) = true.
Proof.
  apply (menu_keeps_catalog_valid lower_ascii decimal 10 (mkWorld empty_library session [])).
  reflexivity.
Defined.

(** X19.  The catalog of a menu that was started on any data file is, after
    any number of turns and whatever was typed, the catalog of a process:
    what holds of every process (the counter above the ids, the statuses,
    the file that holds the catalog) holds all along a session. *)
Theorem menu_session_is_process (lower : string -> string) (int_of_str : string -> option Z)
    (file : resource) (writable : bool) (keys : list string) (w : World) (depth : nat) :
  LibraryInterface.__init__ file writable keys = Ok w ->
  exists hist,
    process lower int_of_str
      (library (snd (LibraryInterface.run lower int_of_str depth w))) hist.
Proof.
  unfold LibraryInterface.__init__.
  destruct (__init__ file writable) as [lib|e] eqn:Hinit; [|discriminate].
  intros [= <-].
  destruct (steady_run lower int_of_str depth (mkWorld lib keys [])) as (cs & _ & ->).
  eexists. apply process_all. exact (process_start lower int_of_str file writable lib Hinit).
Qed.

(** The session, started without a data file. *)
Lemma menu_session_is_process_witness :
  exists hist,
    process lower_ascii decimal
      (library (snd (LibraryInterface.run lower_ascii decimal 10
                       (mkWorld empty_library session [])))) hist.
Proof.
  apply (menu_session_is_process lower_ascii decimal Absent true session
           (mkWorld empty_library session []) 10).
  reflexivity.
Defined.

(** ** What the menu lets through *)

(** A piece of the menu that raises nothing but what [P] allows. *)
Definition fails_only {A : Type} (P : raised -> Prop) (m : IO A) : Prop :=
  forall w r, fst (m w) = Fail r -> P r.








Lemma fails_weaken {A : Type} (P Q : raised -> Prop) (m : IO A) :
  (forall r, Q r -> P r) -> fails_only Q m -> fails_only P m.
Proof. intros H Hm w r Hr. apply H. now apply (Hm w). Qed.




Section Leaks.

Variable lower : string -> string.
Variable int_of_str : string -> option Z.





End Leaks.




Section LimitLeaks.

Variable lower : string -> string.
Variable int_of_str : string -> option Z.




End LimitLeaks.


(** X21.  A turn of the menu cannot be made to fail by what is typed or by
    what the catalog holds: it raises only when the input has ended before
    the choice was read, it raises [EOFError] then, and the catalog is as it
    was; in every other case it returns, and it asks for another turn
    unless the choice was 6. *)
Theorem turn_fails_at_the_prompt_only (lower : string -> string)
    (int_of_str : string -> option Z) (w : World) :
  (stdin w = [] ->
   fst (LibraryInterface.turn lower int_of_str w) = Fail EOFError
   /\ library (snd (LibraryInterface.turn lower int_of_str w)) = library w)
  /\ (forall choice rest,
        stdin w = choice :: rest ->
        fst (LibraryInterface.turn lower int_of_str w) = Done (negb (String.eqb choice "6"))).
Proof.
  unfold LibraryInterface.turn. split.
  - intros H. cbv [io_bind say print input]. simpl. now rewrite H.
  - intros choice rest H. cbv [io_bind say print input]. simpl. rewrite H.
    destruct (String.eqb choice "6"); [reflexivity|]. simpl.
    unfold try_except.
    match goal with |- context [match ?b ?w0 with _ => _ end] => destruct (b w0) as [[u|r] w'] end;
      [reflexivity|].
    destruct r as [e|]; [destruct (is_BookError e)|]; reflexivity.
Qed.

(** A catalog in which a title is a number, as [add_book(1984, ...)]
    leaves it. *)
Definition number_title : Library :=
  snd (add_book decimal (ATitle (VInt 1984)) (VStr "Orwell") (VInt 1949) empty_library).


(** On the catalog [long_year], whose year cannot be written, the handler
    for adding lets the [ValueError] of the save through, after the new book
    was appended; the handler for deleting catches it. *)
Example add_handler_lets_ValueError_through :
  fst (LimitInterface.add_book decimal
         (mkWorld long_year ["Animal Farm"; "Orwell"; "1945"] []))
  = Fail (Lib ValueError)
  /\ map Book.title
       (books (library (snd (LimitInterface.add_book decimal
                               (mkWorld long_year ["Animal Farm"; "Orwell"; "1945"] [])))))
     = [VStr "1984"; VStr "Animal Farm"]
  /\ fst (LimitInterface.delete_book decimal
            (mkWorld (snd (Limit.add_book decimal (ATitle (VStr "Animal Farm")) (VStr "Orwell")
                             (VStr "1945") long_year))
                     ["2"] []))
     = Done tt.
Proof. repeat split; vm_compute; reflexivity. Qed.

(** The same search through a turn of the menu is caught, and with no
    input left the turn raises [EOFError]. *)
Lemma turn_fails_at_the_prompt_only_witness :
  fst (LibraryInterface.turn lower_ascii decimal (mkWorld number_title ["3"; "1"; "1984"] []))
  = Done true
  /\ fst (LibraryInterface.turn lower_ascii decimal (mkWorld number_title [] [])) = Fail EOFError.
Proof.
  split.
  - exact (proj2 (turn_fails_at_the_prompt_only lower_ascii decimal
                    (mkWorld number_title ["3"; "1"; "1984"] []))
                 "3" ["1"; "1984"] eq_refl).
  - exact (proj1 (proj1 (turn_fails_at_the_prompt_only lower_ascii decimal
                           (mkWorld number_title [] []))
                        eq_refl)).
Defined.
